(** * sqlexec: the tautology-injection report block and its comparator

    The repository's sources are four maintenance scripts.  Three of them
    delete line ranges of [memory_source.go] (duplicate definitions of
    [compareEqual]); the fourth, [fix_parser.py], writes a block of Go
    statements into [sql_injection_parser.go].  That block is the only
    program text of the detector present in the sources:

    <<
      if d.isTautologyCondition(stmt.Where) {
          result.IsDetected = true
          whereText := stmt.Where.OriginalText()
          if whereText == EMPTY {
              whereText = PLACEHOLDER
          }
          result.Details = append(result.Details, InjectionDetail{
              Pattern:  TAG,
              Position: stmt.OriginTextPosition(),
              Length:   len(whereText),
              Fragment: whereText,
          })
      }
    >>

    (EMPTY is the empty string literal, PLACEHOLDER the literal
    [WHERE clause with tautology condition] and TAG the literal
    [tautology_injection].)  It is emitted twice: with its guard by
    [fix_fragment_issue] (fix_parser.py, lines 10-23) and without it, as
    the list [new_lines] (lines 50-62).  Module [FixParser] embeds both,
    as functions from the state of the caller's result before the block
    to its state after.  The comparator
    [compareEqual] and the condition evaluator behind
    [isTautologyCondition] live in Go files that are not part of the
    sources; modules [Comparator] and [Tautology] model them from the
    specification.

    Module [Scripts] embeds the four scripts themselves, as functions
    from the text (or the lines) they read to what they write and print:
    [fix_parser.py] with its function [fix_fragment_issue] and its
    top-level patch loop, [fix_brace_issue.py], [fix_memory_source.py]
    and [fix_all_memory_errors.py]. *)

From Stdlib Require Import ZArith NArith List Bool Ascii String Lia.
From Stdlib Require Import DecimalString.
From Stdlib Require Import SpecFloat.
Import ListNotations.

#[local] Set Warnings "-register-all".
Local Open Scope string_scope.
Local Open Scope Z_scope.

(* ================================================================= *)
(** ** Go strings *)

(** A Go string is a sequence of bytes; Rocq's [string] is one too (each
    [ascii] is eight bits).  The builtin [len] counts bytes. *)

Module GoString.

Definition len (s : string) : Z := Z.of_nat (String.length s).

(** A byte of the form [10xxxxxx] continues a multi-byte UTF-8 sequence;
    every other byte starts a character. *)
Definition isContinuation (c : ascii) : bool :=
  Z.eqb (Z.land (Z.of_nat (nat_of_ascii c)) 192) 128.

(** Number of characters (code points) of a UTF-8 encoded string. *)
Fixpoint charCount (s : string) : Z :=
  match s with
  | EmptyString => 0
  | String.String c rest =>
      (if isContinuation c then 0 else 1) + charCount rest
  end.

Definition isASCIIByte (c : ascii) : bool :=
  Z.ltb (Z.of_nat (nat_of_ascii c)) 128.

Fixpoint isASCII (s : string) : bool :=
  match s with
  | EmptyString => true
  | String.String c rest => isASCIIByte c && isASCII rest
  end.

End GoString.

(* ================================================================= *)
(** ** The value comparator *)

Module Comparator.

(** IEEE 754 binary64, as the Standard Library specifies it. *)
Definition prec : Z := 53.
Definition emax : Z := 1024.

Inductive ConstantValue : Type :=
| Integer (i : Z)
| Float (f : spec_float)
| String (s : string)
| Boolean (b : bool)
| Null.

Inductive Kind : Type := KInteger | KFloat | KString | KBoolean | KNull.

Definition kind (v : ConstantValue) : Kind :=
  match v with
  | Integer _ => KInteger
  | Float _ => KFloat
  | String _ => KString
  | Boolean _ => KBoolean
  | Null => KNull
  end.

Definition isNull (v : ConstantValue) : bool :=
  match v with Null => true | _ => false end.

Inductive ComparisonResult : Type := Equal | NotEqual | Incomparable.

Definition ofBool (b : bool) : ComparisonResult :=
  if b then Equal else NotEqual.

(** Promotion of an integer to the floating representation: conversion
    with rounding to nearest, ties to even. *)
Definition promote (i : Z) : spec_float :=
  binary_normalize prec emax i 0 false.

(** Modelled from the spec: [compareEqual] is defined in
    [memory_source.go], which the sources only patch by line number.
    The four rules of section 4.1 are taken in their order of precedence;
    a pair of floats is a pair of the same kind and falls under rule 2,
    compared by IEEE equality. *)
Definition compareEqual (a b : ConstantValue) : ComparisonResult :=
  if isNull a || isNull b then
    (* rule 1 *)
    if isNull a && isNull b then Incomparable else NotEqual
  else
    match a, b with
    (* rule 2 *)
    | Integer x, Integer y => ofBool (Z.eqb x y)
    | String x, String y => ofBool (String.eqb x y)
    | Boolean x, Boolean y => ofBool (Bool.eqb x y)
    | Float x, Float y => ofBool (SFeqb x y)
    (* rule 3 *)
    | Integer x, Float y => ofBool (SFeqb (promote x) y)
    | Float x, Integer y => ofBool (SFeqb x (promote y))
    (* rule 4 *)
    | _, _ => Incomparable
    end.

(** The literals [3.0] and [3.1] as binary64 values: the correctly
    rounded quotients 30/10 and 31/10. *)
Definition float_3_0 : spec_float := SFdiv prec emax (promote 30) (promote 10).
Definition float_3_1 : spec_float := SFdiv prec emax (promote 31) (promote 10).

(** The two kinds of a pair are an integer and a float, in either order. *)
Definition isIntegerFloat (a b : ConstantValue) : bool :=
  match kind a, kind b with
  | KInteger, KFloat | KFloat, KInteger => true
  | _, _ => false
  end.

(** The mantissa [m] with the sign [s]. *)
Definition signed (s : bool) (m : positive) : Z :=
  if s then Zneg m else Zpos m.

(** The float has the numeric value of the integer [i]: its signed
    mantissa scaled by two to its exponent is [i]. *)
Definition isInteger (f : spec_float) (i : Z) : Prop :=
  match f with
  | S754_zero _ => i = 0
  | S754_finite s m e => signed s m * 2 ^ Z.max e 0 = i * 2 ^ Z.max (- e) 0
  | _ => False
  end.

(** Both floats are a zero, of either sign. *)
Definition bothZero (x y : spec_float) : Prop :=
  match x, y with
  | S754_zero _, S754_zero _ => True
  | _, _ => False
  end.

End Comparator.

(* ================================================================= *)
(** ** The three-valued condition evaluator *)

Module Tautology.
Import Comparator.

Inductive CompareOp : Type :=
| Equals | NotEquals | LessThan | GreaterThan | LessOrEqual | GreaterOrEqual.

Inductive LogicalOp : Type := AND | OR.

Inductive ConditionExpr : Type :=
| Comparison (op : CompareOp) (left right : ConditionExpr)
| Logical (op : LogicalOp) (operands : list ConditionExpr)
| Not (operand : ConditionExpr)
| ColumnRef (name : string)
| Literal (value : ConstantValue)
| Paren (inner : ConditionExpr).

Inductive Verdict : Type := AlwaysTrue | AlwaysFalse | DependsOnData.

Definition isAlwaysTrue (v : Verdict) : bool :=
  match v with AlwaysTrue => true | _ => false end.

Definition isAlwaysFalse (v : Verdict) : bool :=
  match v with AlwaysFalse => true | _ => false end.

Definition invert (v : Verdict) : Verdict :=
  match v with
  | AlwaysTrue => AlwaysFalse
  | AlwaysFalse => AlwaysTrue
  | DependsOnData => DependsOnData
  end.

Definition ofComparison (c : ComparisonResult) : Verdict :=
  match c with
  | Equal => AlwaysTrue
  | NotEqual => AlwaysFalse
  | Incomparable => DependsOnData
  end.

(** Equality of the two operands of a comparison: two literals go to the
    comparator; a column compared with itself is the [x = x] pattern;
    anything else has no constant counterpart. *)
Definition operandsEqual (l r : ConditionExpr) : ComparisonResult :=
  match l, r with
  | Literal a, Literal b => compareEqual a b
  | ColumnRef x, ColumnRef y =>
      if String.eqb x y then Equal else Incomparable
  | _, _ => Incomparable
  end.

(** Ordering of two numeric literals; [None] when a side is not numeric
    or the floats are unordered. *)
Definition numericOrder (a b : ConstantValue) : option comparison :=
  match a, b with
  | Integer x, Integer y => Some (Z.compare x y)
  | Integer x, Float y => SFcompare (promote x) y
  | Float x, Integer y => SFcompare x (promote y)
  | Float x, Float y => SFcompare x y
  | _, _ => None
  end.

(** Whether an ordering operator holds of an outcome of the ordering. *)
Definition holds (op : CompareOp) (c : comparison) : bool :=
  match op, c with
  | LessThan, Lt => true
  | GreaterThan, Gt => true
  | LessOrEqual, (Lt | Eq) => true
  | GreaterOrEqual, (Gt | Eq) => true
  | _, _ => false
  end.

Definition relational (op : CompareOp) (l r : ConditionExpr) : Verdict :=
  match l, r with
  | Literal a, Literal b =>
      match numericOrder a b with
      | Some c => if holds op c then AlwaysTrue else AlwaysFalse
      | None => DependsOnData
      end
  | _, _ => DependsOnData
  end.

Definition evalComparison (op : CompareOp) (l r : ConditionExpr) : Verdict :=
  match op with
  | Equals => ofComparison (operandsEqual l r)
  | NotEquals => invert (ofComparison (operandsEqual l r))
  | _ => relational op l r
  end.

(** One step of the walk over the operands of an AND: a false operand
    decides the node, an undetermined one keeps it from being true.  The
    walk starts from [AlwaysTrue]: a node without operands has no false
    operand and none that is not true. *)
Definition andStep (v acc : Verdict) : Verdict :=
  match v, acc with
  | AlwaysFalse, _ => AlwaysFalse
  | _, AlwaysFalse => AlwaysFalse
  | AlwaysTrue, AlwaysTrue => AlwaysTrue
  | _, _ => DependsOnData
  end.

Definition orStep (v acc : Verdict) : Verdict :=
  match v, acc with
  | AlwaysTrue, _ => AlwaysTrue
  | _, AlwaysTrue => AlwaysTrue
  | AlwaysFalse, AlwaysFalse => AlwaysFalse
  | _, _ => DependsOnData
  end.

Definition evalAnd (vs : list Verdict) : Verdict :=
  fold_right andStep AlwaysTrue vs.

Definition evalOr (vs : list Verdict) : Verdict :=
  fold_right orStep AlwaysFalse vs.

(** Modelled from the spec: the recursive evaluation of section 4.2; the
    Go function that performs it is defined in [sql_injection_parser.go],
    outside the sources. *)
Fixpoint evaluate (e : ConditionExpr) : Verdict :=
  match e with
  | Literal (Boolean true) => AlwaysTrue
  | Literal (Boolean false) => AlwaysFalse
  | Literal _ => DependsOnData
  | Comparison op l r => evalComparison op l r
  | Logical AND operands => evalAnd (map evaluate operands)
  | Logical OR operands => evalOr (map evaluate operands)
  | Not operand => invert (evaluate operand)
  | Paren inner => evaluate inner
  | ColumnRef _ => DependsOnData
  end.

Definition IsTautology (e : ConditionExpr) : bool :=
  isAlwaysTrue (evaluate e).

End Tautology.

(* ================================================================= *)
(** ** The report block written by [fix_parser.py] *)

Module FixParser.
Import GoString Tautology.

Record InjectionDetail : Type := {
  Pattern : string;
  Position : Z;
  Length : Z;
  Fragment : string
}.

Record DetectionResult : Type := {
  IsDetected : bool;
  Details : list InjectionDetail
}.

(** The parser's node interface: every node of a parsed statement, the
    statement itself included, answers [OriginalText()] and
    [OriginTextPosition()] with its own source text and start offset. *)
Class Node (A : Type) : Type := {
  OriginalText : A -> string;
  OriginTextPosition : A -> Z
}.

(** The expression node held in [stmt.Where]. *)
Record ExprNode : Type := {
  exprText : string;
  exprOffset : Z;
  Expr : ConditionExpr
}.

(** The statement; [Where] is nil when the statement has no filter. *)
Record SelectStmt : Type := {
  stmtText : string;
  stmtOffset : Z;
  Where : option ExprNode
}.

#[export] Instance ExprNode_Node : Node ExprNode :=
  {| OriginalText := exprText; OriginTextPosition := exprOffset |}.

#[export] Instance SelectStmt_Node : Node SelectStmt :=
  {| OriginalText := stmtText; OriginTextPosition := stmtOffset |}.

(** The caller owns [result] and the block updates it in place; an update
    is a function from the old state of the object to the new one. *)
Definition setIsDetected (b : bool) (result : DetectionResult) : DetectionResult :=
  {| IsDetected := b; Details := Details result |}.

Definition appendDetail (d : InjectionDetail) (result : DetectionResult) : DetectionResult :=
  {| IsDetected := IsDetected result; Details := Details result ++ [d] |}.

(** How the block ends, with the state it leaves [result] in: it runs to
    its last statement, or a method call on a nil [stmt.Where] stops it. *)
Inductive Outcome : Type :=
| Returned (result : DetectionResult)
| Panicked (result : DetectionResult).

Definition resultOf (o : Outcome) : DetectionResult :=
  match o with Returned r | Panicked r => r end.

(** The statements of the list [new_lines] (fix_parser.py, lines 50-62):
    the body of the report block, written below an existing guard. *)
Definition new_lines (stmt : SelectStmt) (result : DetectionResult) : Outcome :=
  let result := setIsDetected true result in
  match Where stmt with
  | None => Panicked result
  | Some where_ =>
      let whereText := OriginalText where_ in
      let whereText :=
        if String.eqb whereText ""
        then "WHERE clause with tautology condition"
        else whereText in
      Returned
        (appendDetail
           {| Pattern := "tautology_injection";
              Position := OriginTextPosition stmt;
              Length := len whereText;
              Fragment := whereText |}
           result)
  end.

Section Guard.

(** [d.isTautologyCondition] is called by the block and defined elsewhere
    in [sql_injection_parser.go]; the block is embedded for any such
    predicate. *)
Variable isTautologyCondition : option ExprNode -> bool.

(** The statements inserted by [fix_fragment_issue] (fix_parser.py,
    lines 10-22): the guard and the body. *)
Definition fix_fragment_issue (stmt : SelectStmt) (result : DetectionResult) : Outcome :=
  if isTautologyCondition (Where stmt) then
    let result := setIsDetected true result in
    match Where stmt with
    | None => Panicked result
    | Some where_ =>
        let whereText := OriginalText where_ in
        let whereText :=
          if String.eqb whereText ""
          then "WHERE clause with tautology condition"
          else whereText in
        Returned
          (appendDetail
             {| Pattern := "tautology_injection";
                Position := OriginTextPosition stmt;
                Length := len whereText;
                Fragment := whereText |}
             result)
    end
  else Returned result.

End Guard.

(** Modelled from the spec: the predicate behind [isTautologyCondition].
    A statement without a filter is not a tautology; a filter is one when
    its root evaluates to [AlwaysTrue]. *)
Definition isTautologyCondition (where_ : option ExprNode) : bool :=
  match where_ with
  | None => false
  | Some n => IsTautology (Expr n)
  end.

(** The detector of section 4.2: the block, guarded by that predicate. *)
Definition DetectTautology (stmt : SelectStmt) (result : DetectionResult) : Outcome :=
  fix_fragment_issue isTautologyCondition stmt result.

(** A fresh result, as a caller creates it. *)
Definition fresh : DetectionResult := {| IsDetected := false; Details := [] |}.

(** The invariant of the data model. *)
Definition invariant (r : DetectionResult) : Prop :=
  IsDetected r = true <-> Details r <> [].

(** The text the block reports for a filter: its source text, or the
    placeholder when none was recorded. *)
Definition whereTextOf (where_ : ExprNode) : string :=
  if String.eqb (OriginalText where_) ""
  then "WHERE clause with tautology condition"
  else OriginalText where_.

End FixParser.

(* ================================================================= *)
(** ** Statements used as concrete inputs *)

Module Samples.
Import Comparator Tautology FixParser.

Definition selectPrefix : string := "SELECT * FROM users WHERE ".

(** A filter with its source text, placed after [selectPrefix]. *)
Definition mkWhere (whereText : string) (e : ConditionExpr) : ExprNode :=
  {| exprText := whereText;
     exprOffset := GoString.len selectPrefix;
     Expr := e |}.

(** The statement [selectPrefix ++ whereText], starting at offset 0. *)
Definition mkStmt (w : ExprNode) : SelectStmt :=
  {| stmtText := selectPrefix ++ exprText w;
     stmtOffset := 0;
     Where := Some w |}.

Definition one_eq_one : ConditionExpr :=
  Comparison Equals (Literal (Integer 1)) (Literal (Integer 1)).

Definition two_eq_two : ConditionExpr :=
  Comparison Equals (Literal (Integer 2)) (Literal (Integer 2)).

Definition age_gt_18 : ConditionExpr :=
  Comparison GreaterThan (ColumnRef "age") (Literal (Integer 18)).

Definition status_eq_x : ConditionExpr :=
  Comparison Equals (ColumnRef "status") (Literal (String "x")).

Definition name_eq (s : string) : ConditionExpr :=
  Comparison Equals (ColumnRef "name") (Literal (String s)).

(** [WHERE 1=1] *)
Definition where_literal : ExprNode := mkWhere "1=1" one_eq_one.
Definition stmt_literal : SelectStmt := mkStmt where_literal.

(** [WHERE x = x] *)
Definition where_self : ExprNode :=
  mkWhere "x = x" (Comparison Equals (ColumnRef "x") (ColumnRef "x")).
Definition stmt_self : SelectStmt := mkStmt where_self.

(** [WHERE age > 18] *)
Definition where_age : ExprNode := mkWhere "age > 18" age_gt_18.
Definition stmt_age : SelectStmt := mkStmt where_age.

(** [WHERE status = 'x' OR 1=1] *)
Definition where_or : ExprNode :=
  mkWhere "status = 'x' OR 1=1" (Logical OR [status_eq_x; one_eq_one]).
Definition stmt_or : SelectStmt := mkStmt where_or.

(** [WHERE 1=1 AND age > 18] *)
Definition where_and : ExprNode :=
  mkWhere "1=1 AND age > 18" (Logical AND [one_eq_one; age_gt_18]).
Definition stmt_and : SelectStmt := mkStmt where_and.

(** [WHERE 1=1 OR 2=2]: two tautological operands. *)
Definition where_two : ExprNode :=
  mkWhere "1=1 OR 2=2" (Logical OR [one_eq_one; two_eq_two]).
Definition stmt_two : SelectStmt := mkStmt where_two.

(** The letter e with an acute accent: one character, two bytes in
    UTF-8 (195, 169). *)
Definition e_acute : string := String.String "195" (String.String "169" "").

(** [WHERE name = 'e' OR 1=1], the quoted letter carrying the accent. *)
Definition where_accent : ExprNode :=
  mkWhere ("name = '" ++ e_acute ++ "' OR 1=1")
    (Logical OR [name_eq e_acute; one_eq_one]).
Definition stmt_accent : SelectStmt := mkStmt where_accent.

(** [WHERE 1=1] parsed without a recorded source span for the filter. *)
Definition where_no_span : ExprNode :=
  {| exprText := ""; exprOffset := 0; Expr := one_eq_one |}.
Definition stmt_no_span : SelectStmt :=
  {| stmtText := selectPrefix ++ "1=1";
     stmtOffset := 0;
     Where := Some where_no_span |}.

(** A statement without a filter. *)
Definition stmt_no_where : SelectStmt :=
  {| stmtText := "SELECT * FROM users"; stmtOffset := 0; Where := None |}.

(** A result whose flag is set although it holds no detail. *)
Definition flag_only : DetectionResult :=
  {| IsDetected := true; Details := [] |}.

End Samples.

(* ================================================================= *)
(* ================================================================= *)
(** ** The scripts *)

Module Scripts.
Local Open Scope list_scope.
Local Open Scope nat_scope.

(** *** The Python the scripts are written in *)

(** A Python [str] is a sequence of Unicode code points; the scripts read
    their files as UTF-8 text, so what they see of a file is such a
    sequence ([f.read()]) or a list of them ([f.readlines()], one per
    line, each line keeping its end-of-line character). *)

Module Py.

Definition char : Type := N.
Definition str : Type := list char.

(** An ASCII literal of a script. *)
Definition lit (s : string) : str :=
  map N_of_ascii (list_ascii_of_string s).

(** The characters the scripts write as escapes or inside quotes. *)
Definition newline : char := 10%N.
Definition tab : char := 9%N.
Definition quote : char := 34%N.

Definition tabs (n : nat) : str := repeat tab n.

Fixpoint str_eqb (a b : str) : bool :=
  match a, b with
  | [], [] => true
  | x :: a', y :: b' => N.eqb x y && str_eqb a' b'
  | _, _ => false
  end.

(** [str.isspace] on one character: the code points Unicode classes as
    white space. *)
Definition isspace (c : char) : bool :=
  existsb (N.eqb c)
    [9; 10; 11; 12; 13; 28; 29; 30; 31; 32; 133; 160; 5760;
     8192; 8193; 8194; 8195; 8196; 8197; 8198; 8199; 8200; 8201; 8202;
     8232; 8233; 8239; 8287; 12288]%N.

Fixpoint lstrip (s : str) : str :=
  match s with
  | [] => []
  | c :: s' => if isspace c then lstrip s' else s
  end.

Definition rstrip (s : str) : str := rev (lstrip (rev s)).

(** [s.strip()] *)
Definition strip (s : str) : str := rstrip (lstrip s).

(** [s.startswith(prefix)] *)
Fixpoint startswith (prefix s : str) : bool :=
  match prefix, s with
  | [], _ => true
  | _ :: _, [] => false
  | x :: prefix', y :: s' => N.eqb x y && startswith prefix' s'
  end.

(** [needle in s] *)
Fixpoint contains (needle s : str) : bool :=
  startswith needle s ||
  match s with
  | [] => false
  | _ :: s' => contains needle s'
  end.

(** [s.split(sep)] for a separator of one character. *)
Fixpoint split (sep : char) (s : str) : list str :=
  match s with
  | [] => [[]]
  | c :: s' =>
      if N.eqb c sep then [] :: split sep s'
      else match split sep s' with
           | [] => [[c]]
           | piece :: pieces => (c :: piece) :: pieces
           end
  end.

(** [sep.join(pieces)] *)
Fixpoint join (sep : str) (pieces : list str) : str :=
  match pieces with
  | [] => []
  | [piece] => piece
  | piece :: pieces' => piece ++ sep ++ join sep pieces'
  end.

(** [l[:j]], [l[i:]] and [l[i:j] = new] are [firstn j l], [skipn i l] and
    [assign_slice]; an index past the end is clipped, as Python does. *)
Definition assign_slice {A : Type} (i j : nat) (new l : list A) : list A :=
  firstn i l ++ new ++ skipn j l.

(** [l[i] = x] for an index in range. *)
Definition set_item {A : Type} (i : nat) (x : A) (l : list A) : list A :=
  firstn i l ++ x :: skipn (S i) l.

(** [l.insert(i, x)]: past the end, the element is appended. *)
Definition insert {A : Type} (i : nat) (x : A) (l : list A) : list A :=
  firstn i l ++ x :: skipn i l.

(** No character of [s] is [sep]. *)
Definition free_of (sep : char) (s : str) : Prop := ~ In sep s.

(** What a call returns, or the exception it raises. *)
Inductive result (A : Type) : Type :=
| Ok (a : A)
| IndexError.
Arguments Ok {A} a.
Arguments IndexError {A}.

(** [l.pop(i)], keeping the list and dropping the popped element: an
    index past the end raises [IndexError]. *)
Definition pop {A : Type} (i : nat) (l : list A) : result (list A) :=
  if Nat.ltb i (List.length l) then Ok (firstn i l ++ skipn (S i) l)
  else IndexError.

(** An integer inside an f-string. *)
Definition str_of_int (n : nat) : str :=
  lit (NilEmpty.string_of_uint (N.to_uint (N.of_nat n))).

(** What a script run leaves behind: the text it wrote to its file, if it
    wrote, and the lines it printed. *)
Record run (F : Type) : Type := {
  written : option F;
  stdout : list str
}.
Arguments written {F} r.
Arguments stdout {F} r.

End Py.

(** *** fix_parser.py *)

Module fix_parser.
Import Py.

(** [fix_fragment_issue], lines 10-23: the line that replaces [lines[i]]
    and the thirteen lines inserted below it, each with the offset from
    [i] it is inserted at. *)
Definition guard_line : str :=
  tabs 3 ++ lit "if d.isTautologyCondition(stmt.Where) {".

Definition inserted : list (nat * str) :=
  [ (1, tabs 4 ++ lit "result.IsDetected = true");
    (2, tabs 4 ++ lit "whereText := stmt.Where.OriginalText()");
    (3, tabs 4 ++ lit "if whereText == " ++ [quote; quote] ++ lit " {");
    (4, tabs 5 ++ lit "whereText = " ++ [quote]
          ++ lit "WHERE clause with tautology condition" ++ [quote]);
    (5, tabs 4 ++ lit "}");
    (6, tabs 4 ++ lit "result.Details = append(result.Details, InjectionDetail{");
    (7, tabs 5 ++ lit "Pattern:  " ++ [quote] ++ lit "tautology_injection"
          ++ [quote] ++ lit ",");
    (8, tabs 5 ++ lit "Position: stmt.OriginTextPosition(),");
    (9, tabs 5 ++ lit "Length:   len(whereText),");
    (10, tabs 5 ++ lit "Fragment: whereText,");
    (11, tabs 4 ++ lit "})");
    (12, tabs 3 ++ lit "}");
    (13, tabs 2 ++ lit "}") ]%nat.

(** The fourteen lines the function writes, in order. *)
Definition block : list str := guard_line :: map snd inserted.

(** [for _ in range(n): lines.pop(j)] *)
Fixpoint pops (n j : nat) (lines : list str) : result (list str) :=
  match n with
  | O => Ok lines
  | S n' =>
      match pop j lines with
      | Ok lines' => pops n' j lines'
      | IndexError => IndexError
      end
  end.

(** The body of the loop at the index [i] that is [line_num - 1]. *)
Definition rewrite_at (i : nat) (lines : list str) : result (list str) :=
  let lines := set_item i guard_line lines in
  let lines :=
    fold_left (fun ls kx => insert (i + fst kx) (snd kx) ls) inserted lines in
  pops 15 (i + 14) lines.

(** [for i in range(len(lines))] with the [break] of line 27; [range] is
    the indices still to visit. *)
Fixpoint fragment_loop (range : list nat) (line_num : Z) (lines : list str)
  : result (list str) :=
  match range with
  | [] => Ok lines
  | i :: range' =>
      if Z.eqb (Z.of_nat i) (line_num - 1) then rewrite_at i lines
      else fragment_loop range' line_num lines
  end.

Definition fix_fragment_issue (content : str) (line_num : Z) (indent : str)
  : result str :=
  let lines := split newline content in
  match fragment_loop (seq 0 (List.length lines)) line_num lines with
  | Ok lines => Ok (join [newline] lines)
  | IndexError => IndexError
  end.

(** The list [new_lines] of lines 49-63. *)
Definition indent : str := tabs 3.

Definition new_lines : list str :=
  [ indent ++ lit "result.IsDetected = true";
    indent ++ lit "whereText := stmt.Where.OriginalText()";
    indent ++ lit "if whereText == " ++ [quote; quote] ++ lit " {";
    indent ++ tabs 1 ++ lit "whereText = " ++ [quote]
      ++ lit "WHERE clause with tautology condition" ++ [quote];
    indent ++ lit "}";
    indent ++ lit "result.Details = append(result.Details, InjectionDetail{";
    indent ++ tabs 1 ++ lit "Pattern:  " ++ [quote] ++ lit "tautology_injection"
      ++ [quote] ++ lit ",";
    indent ++ tabs 1 ++ lit "Position: stmt.OriginTextPosition(),";
    indent ++ tabs 1 ++ lit "Length:   len(whereText),";
    indent ++ tabs 1 ++ lit "Fragment: whereText,";
    indent ++ lit "})";
    indent ++ lit "}" ].

(** The three tests of lines 36, 38 and 40 at index [i]. *)
Definition sets_flag (i : nat) (lines : list str) : bool :=
  contains (lit "result.IsDetected = true") (nth i lines [])
  && Nat.ltb 90 i.

Definition fragment_below (i : nat) (lines : list str) : bool :=
  Nat.ltb (i + 2) (List.length lines)
  && contains (lit "Fragment:") (nth (i + 2) lines []).

Definition uses_where_text (i : nat) (lines : list str) : bool :=
  contains (lit "stmt.Where.Text()") (nth (i + 2) lines [])
  || contains (lit "Where.Text()") (nth (i + 2) lines []).

(** The loop of lines 35-67 with its [break]; lines 42-46 compute a value
    the script never reads. *)
Fixpoint patch_loop (range : list nat) (lines : list str) : list str :=
  match range with
  | [] => lines
  | i :: range' =>
      if sets_flag i lines then
        if fragment_below i lines then
          if uses_where_text i lines then
            assign_slice i (i + 4) new_lines lines
          else patch_loop range' lines
        else patch_loop range' lines
      else patch_loop range' lines
  end.

(** The script, from the text of [sql_injection_parser.go] it reads to the
    text it writes back and the line it prints. *)
Definition main (content : str) : run str :=
  let lines := split newline content in
  let lines := patch_loop (seq 0 (List.length lines)) lines in
  let content := join [newline] lines in
  {| written := Some content; stdout := [lit "Fixed Fragment issues"] |}.


(** The three tests together: index [i] is a site the script patches. *)
Definition is_site (lines : list str) (i : nat) : bool :=
  sets_flag i lines && fragment_below i lines && uses_where_text i lines.

(** The first such index, in the order the loop visits them. *)
Definition first_site (lines : list str) : option nat :=
  find (is_site lines) (seq 0 (List.length lines)).

(** All of them. *)
Definition sites (lines : list str) : list nat :=
  filter (is_site lines) (seq 0 (List.length lines)).

(** The lines the script joins and writes. *)
Definition patched (lines : list str) : list str :=
  patch_loop (seq 0 (List.length lines)) lines.

End fix_parser.

(** *** fix_brace_issue.py *)

Module fix_brace_issue.
Import Py.

Definition main (lines : list str) : run (list str) :=
  let new_lines := firstn 593 lines ++ skipn 594 lines in
  {| written := Some new_lines;
     stdout := [lit "Deleted line 594 (empty closing brace). Total lines: "
                  ++ str_of_int (List.length new_lines)] |}.

End fix_brace_issue.

(** *** fix_memory_source.py *)

Module fix_memory_source.
Import Py.

(** The variables the loop of lines 15-38 updates. *)
Record state : Type := {
  new_lines : list str;
  skip_count : Z;
  in_compare_equal : bool
}.

(** One iteration, for the line [line] at index [i]. *)
Definition step (i : nat) (line : str) (st : state) : state :=
  let line_num := (i + 1)%nat in
  if Z.ltb 0 (skip_count st) && Nat.ltb line_num 594 then
    {| new_lines := new_lines st;
       skip_count := skip_count st - 1;
       in_compare_equal := in_compare_equal st |}
  else if Nat.eqb line_num 594 && contains (lit "func compareEqual(") line then
    {| new_lines := new_lines st;
       skip_count := 10;
       in_compare_equal := true |}
  else
    let in_compare_equal' :=
      if in_compare_equal st && Z.leb (skip_count st) 0 && Nat.ltb 603 line_num
      then false else in_compare_equal st in
    if Z.ltb 0 (skip_count st) then
      {| new_lines := new_lines st;
         skip_count := skip_count st - 1;
         in_compare_equal := in_compare_equal' |}
    else
      {| new_lines := new_lines st ++ [line];
         skip_count := skip_count st;
         in_compare_equal := in_compare_equal' |}.

(** [for i, line in enumerate(lines)], from index [i] on. *)
Fixpoint loop (i : nat) (lines : list str) (st : state) : state :=
  match lines with
  | [] => st
  | line :: lines' => loop (S i) lines' (step i line st)
  end.

(** The six characters before and the one after the count in the
    message of line 44. *)
Definition done_prefix : str := [22788; 29702; 23436; 25104; 65292; 20849]%N.
Definition done_suffix : str := [34892]%N.

Definition main (lines : list str) : run (list str) :=
  let st := loop 0 lines
              {| new_lines := []; skip_count := 0; in_compare_equal := false |} in
  {| written := Some (new_lines st);
     stdout := [done_prefix ++ str_of_int (List.length (new_lines st)) ++ done_suffix] |}.

End fix_memory_source.

(** *** fix_all_memory_errors.py *)

Module fix_all_memory_errors.
Import Py.

Definition is_definition (line : str) : bool :=
  startswith (lit "func compareEqual") (strip line).

(** The loop of lines 13-16 from line number [i] on: the line numbers of
    the definitions, and one printed line for every line read. *)
Fixpoint find_definitions (i : nat) (lines : list str) : list nat * list str :=
  match lines with
  | [] => ([], [])
  | line :: lines' =>
      let (found, printed) := find_definitions (S i) lines' in
      ((if is_definition line then [i] else []) ++ found,
       (lit "Found compareEqual at line " ++ str_of_int i) :: printed)
  end.

(** The loop of lines 28-33 from index [i] on, over the lines from that
    index: the value of [end_line] after it. *)
Fixpoint find_end (i : nat) (rest : list str) (brace_count end_line : nat) : nat :=
  match rest with
  | [] => end_line
  | line :: rest' =>
      let brace_count :=
        if contains (lit "return") line then S brace_count else brace_count in
      if Nat.leb 2 brace_count && str_eqb (strip line) (lit "}") then S i
      else find_end (S i) rest' brace_count end_line
  end.

Definition main (lines : list str) : run (list str) :=
  let (compare_equal_lines, printed) := find_definitions 1 lines in
  if Nat.ltb 1 (List.length compare_equal_lines) then
    let first_bad_start := nth 1 compare_equal_lines 0%nat in
    let end_line :=
      find_end (first_bad_start - 1) (skipn (first_bad_start - 1) lines)
        0 first_bad_start in
    let new_lines := firstn (first_bad_start - 1) lines ++ skipn end_line lines in
    {| written := Some new_lines;
       stdout :=
         printed ++
         [ lit "Removing duplicate compareEqual starting at line "
             ++ str_of_int first_bad_start;
           lit "Removing lines " ++ str_of_int first_bad_start
             ++ lit " to " ++ str_of_int end_line;
           lit "Fixed! Removed "
             ++ str_of_int (List.length lines - List.length new_lines) ++ lit " lines" ] |}
  else
    {| written := None;
       stdout :=
         printed ++ [lit "Found only one compareEqual function, no need to fix"] |}.


(** How many lines of a file are definitions in the sense of line 14. *)
Definition definitions (lines : list str) : nat :=
  List.length (filter is_definition lines).

(** The line number the script calls [first_bad_start]. *)
Definition first_bad_start (lines : list str) : nat :=
  nth 1 (fst (find_definitions 1 lines)) 0.

(** The value of [end_line] after the scan that starts there. *)
Definition end_line (lines : list str) : nat :=
  find_end (first_bad_start lines - 1)
    (skipn (first_bad_start lines - 1) lines) 0 (first_bad_start lines).

(** How many lines contain [return]. *)
Definition returns (lines : list str) : nat :=
  List.length (filter (contains (lit "return")) lines).

End fix_all_memory_errors.

End Scripts.

(** *** Files used as concrete inputs *)

Module ScriptSamples.
Local Open Scope list_scope.
Local Open Scope nat_scope.
Import Scripts.Py.

(** The lines [1], [2], ..., [n]. *)
Definition numbered (n : nat) : list str := map str_of_int (seq 1 n).

(** A Go file of ninety-six lines whose lines 92 to 95 are a report site
    of the old form. *)
Definition parser_lines : list str :=
  numbered 91
  ++ [ tabs 3 ++ lit "result.IsDetected = true";
       tabs 3 ++ lit "result.Details = append(result.Details, InjectionDetail{";
       tabs 4 ++ lit "Fragment: stmt.Where.Text(),";
       tabs 3 ++ lit "})";
       tabs 2 ++ lit "}" ].

Definition parser_file : str := join [newline] parser_lines.

(** A file with two definitions of [compareEqual], the second of them
    with two [return] lines. *)
Definition memory_lines : list str :=
  [ lit "func compareEqual(a, b interface{}) bool {" ++ [newline];
    tabs 1 ++ lit "return a == b" ++ [newline];
    lit "}" ++ [newline];
    lit "func compareEqual(a, b interface{}) bool {" ++ [newline];
    tabs 1 ++ lit "if a == nil { return b == nil }" ++ [newline];
    tabs 1 ++ lit "return a == b" ++ [newline];
    lit "}" ++ [newline];
    lit "func other() {}" ++ [newline] ].

End ScriptSamples.

(* ================================================================= *)
(** ** Properties of the comparator *)

Section ComparatorFacts.
Import Comparator.

Lemma SFcompare_Eq_sym (x y : spec_float) :
  SFcompare x y = Some Eq -> SFcompare y x = Some Eq.
Proof.
  destruct x as [sx| sx| |sx mx ex], y as [sy| sy| |sy my ey]; simpl;
    try discriminate; try reflexivity;
    try (destruct sx; discriminate); try (destruct sy; discriminate).
  - destruct sx, sy; intros H; try discriminate; reflexivity.
  - rewrite (Z.compare_antisym ex ey).
    change (Pos.compare_cont Eq my mx) with (Pos.compare my mx).
    change (Pos.compare_cont Eq mx my) with (Pos.compare mx my).
    rewrite (Pos.compare_antisym mx my).
    destruct sx, sy; try discriminate;
      destruct (ex ?= ey); simpl; try discriminate;
      destruct (mx ?= my)%positive; simpl; intros H;
      try discriminate; reflexivity.
Qed.

Lemma SFeqb_sym (x y : spec_float) : SFeqb x y = SFeqb y x.
Proof.
  unfold SFeqb.
  destruct (SFcompare x y) as [[| |]|] eqn:Hxy;
    destruct (SFcompare y x) as [[| |]|] eqn:Hyx;
    try reflexivity;
    first [ apply SFcompare_Eq_sym in Hxy | apply SFcompare_Eq_sym in Hyx ];
    congruence.
Qed.

(** IEEE equality holds between identical values and between zeros. *)
Lemma SFcompare_Eq_exact (x y : spec_float) :
  SFcompare x y = Some Eq -> x = y \/ bothZero x y.
Proof.
  destruct x as [sx| sx| |sx mx ex], y as [sy| sy| |sy my ey]; simpl;
    try discriminate;
    try (destruct sx; discriminate); try (destruct sy; discriminate).
  - intros _. right. exact I.
  - destruct sx, sy; intros H; try discriminate; left; reflexivity.
  - change (Pos.compare_cont Eq mx my) with (Pos.compare mx my).
    destruct sx, sy; try discriminate;
      destruct (ex ?= ey) eqn:He; try discriminate;
      destruct (mx ?= my)%positive eqn:Hm; simpl; try discriminate;
      intros _; left;
      apply Z.compare_eq in He; apply Pos.compare_eq in Hm;
      subst; reflexivity.
Qed.

Lemma SFeqb_true_iff (x y : spec_float) :
  SFeqb x y = true <-> SFcompare x y = Some Eq.
Proof.
  unfold SFeqb. destruct (SFcompare x y) as [[| |]|]; split;
    intros H; try discriminate; reflexivity.
Qed.

Lemma ofBool_Equal (b : bool) : ofBool b = Equal <-> b = true.
Proof. destruct b; simpl; split; intros H; try discriminate; reflexivity. Qed.

Lemma ofBool_not_Incomparable (b : bool) : ofBool b <> Incomparable.
Proof. destruct b; discriminate. Qed.

(** *** Promotion of an integer of at most 53 bits is exact *)

Lemma digits2_pos_iter_xO (m k : positive) :
  digits2_pos (Pos.iter xO m k) = (digits2_pos m + k)%positive.
Proof.
  induction k as [| k IH] using Pos.peano_ind.
  - simpl. now rewrite Pos.add_1_r.
  - rewrite Pos.iter_succ. simpl. rewrite IH. now rewrite Pos.add_succ_r.
Qed.

Lemma Zpos_iter_xO (m k : positive) :
  Zpos (Pos.iter xO m k) = Zpos m * 2 ^ Zpos k.
Proof.
  induction k as [| k IH] using Pos.peano_ind.
  - simpl. lia.
  - rewrite Pos.iter_succ, Pos2Z.inj_xO, IH, Pos2Z.inj_succ, Z.pow_succ_r by lia.
    ring.
Qed.

Lemma binary_round_aux_exact (sx : bool) (mz : positive) (ez : Z) :
  Zpos (digits2_pos mz) = 53 -> -1074 <= ez <= 971 ->
  binary_round_aux prec emax sx (Zpos mz) ez loc_Exact = S754_finite sx mz ez.
Proof.
  intros Hd He.
  assert (Hshift : fexp prec emax (Zdigits2 (Zpos mz) + ez) - ez = 0).
  { simpl Zdigits2. rewrite Hd. unfold fexp, emin, prec, emax. lia. }
  unfold binary_round_aux, shr_fexp. rewrite Hshift. cbn [shr shr_record_of_loc shr_m loc_of_shr_record round_nearest_even].
  rewrite Hshift. cbn [shr shr_record_of_loc shr_m].
  replace (ez <=? emax - prec) with true; [reflexivity |].
  symmetry. apply Z.leb_le. unfold emax, prec. lia.
Qed.

Lemma binary_round_exact (sx : bool) (m : positive) :
  Zpos (digits2_pos m) <= 53 ->
  exists mz ez, binary_round prec emax sx m 0 = S754_finite sx mz ez /\
    ez <= 0 /\ Zpos mz = Zpos m * 2 ^ (- ez) /\ Zpos (digits2_pos mz) = 53.
Proof.
  intros Hd. unfold binary_round, shl_align.
  assert (Hf : fexp prec emax (Zpos (digits2_pos m) + 0) = Zpos (digits2_pos m) - 53).
  { unfold fexp, emin, prec, emax. lia. }
  rewrite Hf.
  destruct (Zpos (digits2_pos m) - 53 - 0) as [| k | k] eqn:Hk; try lia.
  - exists m, 0. split; [| split; [lia | split; [simpl; lia | lia]]].
    apply binary_round_aux_exact; lia.
  - exists (Pos.iter xO m k), (Zpos (digits2_pos m) - 53).
    assert (Hdig : Zpos (digits2_pos (Pos.iter xO m k)) = 53)
      by (rewrite digits2_pos_iter_xO; lia).
    split; [| split; [lia | split; [| exact Hdig]]].
    + apply binary_round_aux_exact; [exact Hdig | lia].
    + rewrite Zpos_iter_xO. f_equal. f_equal. lia.
Qed.

Lemma digits2_pos_lower (m : positive) :
  2 ^ (Zpos (digits2_pos m) - 1) <= Zpos m.
Proof.
  induction m as [p IH | p IH |]; cbn [digits2_pos].
  - rewrite Pos2Z.inj_succ.
    replace (Z.succ (Zpos (digits2_pos p)) - 1)
      with (Z.succ (Zpos (digits2_pos p) - 1)) by lia.
    rewrite Z.pow_succ_r by lia. lia.
  - rewrite Pos2Z.inj_succ.
    replace (Z.succ (Zpos (digits2_pos p)) - 1)
      with (Z.succ (Zpos (digits2_pos p) - 1)) by lia.
    rewrite Z.pow_succ_r by lia. lia.
  - simpl. lia.
Qed.

Lemma digits2_pos_small (m : positive) :
  Zpos m < 2 ^ 53 -> Zpos (digits2_pos m) <= 53.
Proof.
  intros Hm. pose proof (digits2_pos_lower m) as Hlow.
  destruct (Z_le_gt_dec (Zpos (digits2_pos m)) 53) as [Hle | Hgt]; [exact Hle |].
  exfalso.
  assert (2 ^ 53 <= 2 ^ (Zpos (digits2_pos m) - 1))
    by (apply Z.pow_le_mono_r; lia).
  lia.
Qed.

Lemma promote_exact (i : Z) : Z.abs i < 2 ^ 53 -> isInteger (promote i) i.
Proof.
  intros Hi. destruct i as [| m | m]; [reflexivity | |];
    unfold promote, binary_normalize.
  - destruct (binary_round_exact false m) as (mz & ez & Hr & He & Hm & _);
      [apply digits2_pos_small; exact Hi |].
    rewrite Hr. cbn [isInteger signed].
    rewrite (Z.max_r ez 0), (Z.max_l (- ez) 0) by lia.
    rewrite Hm. simpl (2 ^ 0). lia.
  - destruct (binary_round_exact true m) as (mz & ez & Hr & He & Hm & _);
      [apply digits2_pos_small; exact Hi |].
    rewrite Hr. cbn [isInteger signed].
    rewrite (Z.max_r ez 0), (Z.max_l (- ez) 0) by lia.
    rewrite <- Pos2Z.opp_pos, Hm. simpl (2 ^ 0). lia.
Qed.

Lemma digits2_pos_upper (m : positive) :
  Zpos m < 2 ^ Zpos (digits2_pos m).
Proof.
  induction m as [p IH | p IH |]; cbn [digits2_pos].
  - rewrite Pos2Z.inj_succ, Z.pow_succ_r by lia. lia.
  - rewrite Pos2Z.inj_succ, Z.pow_succ_r by lia. lia.
  - simpl. lia.
Qed.

(** Two 53-digit mantissas that scale the same positive integer by powers
    of two are scaled by the same power. *)
Lemma scaled_unique (a m1 m2 : positive) (k1 k2 : Z) :
  0 <= k1 -> 0 <= k2 ->
  Zpos m1 = Zpos a * 2 ^ k1 -> Zpos m2 = Zpos a * 2 ^ k2 ->
  Zpos (digits2_pos m1) = 53 -> Zpos (digits2_pos m2) = 53 ->
  k1 = k2.
Proof.
  intros H1 H2 E1 E2 D1 D2.
  pose proof (digits2_pos_lower m1) as L1. pose proof (digits2_pos_upper m1) as U1.
  pose proof (digits2_pos_lower m2) as L2. pose proof (digits2_pos_upper m2) as U2.
  rewrite D1 in L1, U1. rewrite D2 in L2, U2.
  change (2 ^ (53 - 1)) with (2 ^ 52) in L1, L2.
  destruct (Z.lt_trichotomy k1 k2) as [Hlt | [Heq | Hgt]]; [exfalso | exact Heq | exfalso].
  - assert (E : Zpos m2 = Zpos m1 * 2 ^ (k2 - k1)).
    { rewrite E2, E1, <- Z.mul_assoc, <- Z.pow_add_r by lia. do 2 f_equal. lia. }
    assert (2 ^ 1 <= 2 ^ (k2 - k1)) by (apply Z.pow_le_mono_r; lia).
    change (2 ^ 1) with 2 in *. change (2 ^ 52) with 4503599627370496 in *.
    change (2 ^ 53) with 9007199254740992 in *. nia.
  - assert (E : Zpos m1 = Zpos m2 * 2 ^ (k1 - k2)).
    { rewrite E2, E1, <- Z.mul_assoc, <- Z.pow_add_r by lia. do 2 f_equal. lia. }
    assert (2 ^ 1 <= 2 ^ (k1 - k2)) by (apply Z.pow_le_mono_r; lia).
    change (2 ^ 1) with 2 in *. change (2 ^ 52) with 4503599627370496 in *.
    change (2 ^ 53) with 9007199254740992 in *. nia.
Qed.

Lemma promote_finite (s : bool) (a : positive) :
  Zpos a < 2 ^ 53 ->
  exists mz ez,
    promote (signed s a) = S754_finite s mz ez /\
    ez <= 0 /\ Zpos mz = Zpos a * 2 ^ (- ez) /\ Zpos (digits2_pos mz) = 53.
Proof.
  intros Ha. destruct s; unfold promote, signed, binary_normalize;
    apply binary_round_exact, digits2_pos_small, Ha.
Qed.

Lemma promote_unique (s : bool) (m : positive) (e i : Z) :
  valid_binary prec emax (S754_finite s m e) = true ->
  Z.abs i < 2 ^ 53 ->
  isInteger (S754_finite s m e) i ->
  promote i = S754_finite s m e.
Proof.
  unfold valid_binary, bounded, canonical_mantissa, fexp, emin, prec, emax.
  rewrite andb_true_iff, Z.eqb_eq, Z.leb_le. intros [Hcan Hmax] Hi Hval.
  cbn [isInteger] in Hval.
  pose proof (digits2_pos_lower m) as Lm. pose proof (digits2_pos_upper m) as Um.
  assert (He : e <= 0).
  { destruct (Z_le_gt_dec e 0) as [Hle | Hgt]; [exact Hle | exfalso].
    rewrite (Z.max_l e 0), (Z.max_r (- e) 0) in Hval by lia.
    assert (Hd : Zpos (digits2_pos m) = 53) by lia.
    rewrite Hd in Lm. change (2 ^ (53 - 1)) with 4503599627370496 in Lm.
    assert (2 ^ 1 <= 2 ^ e) by (apply Z.pow_le_mono_r; lia).
    change (2 ^ 1) with 2 in *. change (2 ^ 53) with 9007199254740992 in *.
    change (2 ^ 0) with 1 in *.
    destruct s; cbn [signed] in Hval; nia. }
  rewrite (Z.max_r e 0), (Z.max_l (- e) 0) in Hval by lia.
  change (2 ^ 0) with 1 in Hval. rewrite Z.mul_1_r in Hval.
  assert (Hpow : 0 < 2 ^ (- e)) by (apply Z.pow_pos_nonneg; lia).
  assert (Hshape : i = signed s (Z.to_pos (Z.abs i)) /\ 0 < Z.abs i /\
                   Zpos m = Z.abs i * 2 ^ (- e)).
  { destruct s, i as [| a | a]; cbn [signed] in *; try nia;
      (split; [reflexivity | split; [lia |]]); cbn [Z.abs]; lia. }
  destruct Hshape as (Hsign & Hpos & Hm).
  set (a := Z.to_pos (Z.abs i)) in *.
  assert (Ha : Zpos a = Z.abs i) by (apply Z2Pos.id; exact Hpos).
  rewrite <- Ha in Hm, Hi.
  assert (Hd : Zpos (digits2_pos m) = 53).
  { destruct (Z_le_gt_dec (-1074) (Zpos (digits2_pos m) + e - 53)); [lia |].
    exfalso. assert (e = -1074) by lia. subst e.
    assert (Zpos (digits2_pos m) <= 52) by lia.
    assert (2 ^ Zpos (digits2_pos m) <= 2 ^ 52) by (apply Z.pow_le_mono_r; lia).
    assert (2 ^ 52 < 2 ^ (- -1074)) by (apply Z.pow_lt_mono_r; lia).
    nia. }
  destruct (promote_finite s a Hi) as (mz & ez & Hr & Hez & Hmz & Hdz).
  rewrite Hsign, Hr.
  assert (Hk : - e = - ez)
    by (apply (scaled_unique a m mz); try lia; assumption).
  assert (e = ez) by lia. subst ez.
  assert (mz = m) by (apply Pos2Z.inj; rewrite Hm, Hmz; reflexivity).
  subst mz. reflexivity.
Qed.

Lemma SFcompare_finite_refl (s : bool) (m : positive) (e : Z) :
  SFcompare (S754_finite s m e) (S754_finite s m e) = Some Eq.
Proof.
  cbn [SFcompare]. rewrite Z.compare_refl.
  change (Pos.compare_cont Eq m m) with (Pos.compare m m).
  rewrite Pos.compare_refl. destruct s; reflexivity.
Qed.

(** *** The claims *)

Lemma compareEqual_Integer_Float (i : Z) (f : spec_float) :
  compareEqual (Integer i) (Float f) = ofBool (SFeqb (promote i) f).
Proof. reflexivity. Qed.

Lemma compareEqual_Float_Integer (i : Z) (f : spec_float) :
  compareEqual (Float f) (Integer i) = ofBool (SFeqb f (promote i)).
Proof. reflexivity. Qed.

(** C6: comparing two nulls gives [Incomparable]; comparing a null with a
    value that is not null gives [NotEqual], whichever side the null is
    on; no comparison with a null gives [Equal]. *)
Theorem compareEqual_null (v : ConstantValue) :
  compareEqual Null Null = Incomparable /\
  (isNull v = false ->
     compareEqual Null v = NotEqual /\ compareEqual v Null = NotEqual) /\
  compareEqual Null v <> Equal /\
  compareEqual v Null <> Equal.
Proof.
  split; [reflexivity | split].
  - intros Hv. destruct v; try discriminate Hv; split; reflexivity.
  - split; destruct v; discriminate.
Qed.

(** C7: an integer and a float, in either order, are compared by
    promoting the integer to binary64 and testing IEEE equality of the two
    floats, with no tolerance: the answer is [Equal] exactly when that
    test succeeds, in which case the float is the promoted integer itself
    (or both are zero), and [NotEqual] otherwise, never [Incomparable].
    For an integer of at most 53 bits, which promotion represents
    exactly, and a valid binary64 float, the answer is [Equal] exactly
    when the numeric value of the float is the integer.  [3] equals [3.0]
    and differs from [3.1]. *)
Theorem compareEqual_integer_float (i : Z) (f : spec_float) :
  compareEqual (Integer i) (Float f)
    = (if SFeqb (promote i) f then Equal else NotEqual) /\
  compareEqual (Float f) (Integer i) = compareEqual (Integer i) (Float f) /\
  (compareEqual (Integer i) (Float f) = Equal
     <-> SFcompare (promote i) f = Some Eq) /\
  (compareEqual (Integer i) (Float f) = Equal
     -> f = promote i \/ bothZero (promote i) f) /\
  compareEqual (Integer i) (Float f) <> Incomparable /\
  (Z.abs i < 2 ^ 53 -> valid_binary prec emax f = true ->
     (compareEqual (Integer i) (Float f) = Equal <-> isInteger f i)) /\
  compareEqual (Integer 3) (Float float_3_0) = Equal /\
  compareEqual (Float float_3_0) (Integer 3) = Equal /\
  compareEqual (Integer 3) (Float float_3_1) = NotEqual /\
  compareEqual (Float float_3_1) (Integer 3) = NotEqual.
Proof.
  rewrite compareEqual_Float_Integer, compareEqual_Integer_Float.
  rewrite (SFeqb_sym f (promote i)).
  assert (Hiff : ofBool (SFeqb (promote i) f) = Equal
                 <-> SFcompare (promote i) f = Some Eq)
    by (rewrite ofBool_Equal; apply SFeqb_true_iff).
  split; [reflexivity | split; [reflexivity | split; [exact Hiff |]]].
  split; [| split; [apply ofBool_not_Incomparable | split]].
  - intros H. apply Hiff in H.
    destruct (SFcompare_Eq_exact _ _ H) as [E | Z0]; auto.
  - intros Hi Hv. rewrite Hiff. split.
    + intros H. pose proof (promote_exact i Hi) as Hp.
      destruct (SFcompare_Eq_exact _ _ H) as [E | Z0].
      * rewrite <- E. exact Hp.
      * destruct (promote i), f; try contradiction. exact Hp.
    + intros Hint.
      destruct f as [sf | sf | | sf m e]; cbn [isInteger] in Hint;
        try contradiction.
      * subst i. reflexivity.
      * rewrite (promote_unique sf m e i Hv Hi Hint).
        apply SFcompare_finite_refl.
  - repeat split; reflexivity.
Qed.

(** C8: two values, neither null, of different kinds that are not an
    integer and a float, compare as [Incomparable], so never as [Equal]. *)
Theorem compareEqual_cross_kind (a b : ConstantValue)
    (Ha : isNull a = false) (Hb : isNull b = false)
    (Hkind : kind a <> kind b)
    (Hnum : isIntegerFloat a b = false) :
  compareEqual a b = Incomparable /\ compareEqual a b <> Equal.
Proof.
  destruct a, b; simpl in *;
    try discriminate; try (exfalso; apply Hkind; reflexivity);
    split; try reflexivity; discriminate.
Qed.

Lemma compareEqual_cross_kind_witness :
  compareEqual (String "1") (Integer 1) = Incomparable /\
  compareEqual (String "1") (Integer 1) <> Equal.
Proof.
  apply (compareEqual_cross_kind (String "1") (Integer 1));
    simpl; try reflexivity; discriminate.
Defined.

(** C9: the comparator is symmetric. *)
Theorem compareEqual_sym (a b : ConstantValue) :
  compareEqual a b = compareEqual b a.
Proof.
  destruct a as [x|x|x|x|], b as [y|y|y|y|];
    cbn [compareEqual isNull orb andb]; try reflexivity; f_equal.
  - apply Z.eqb_sym.
  - apply SFeqb_sym.
  - apply SFeqb_sym.
  - apply SFeqb_sym.
  - apply String.eqb_sym.
  - destruct x, y; reflexivity.
Qed.

End ComparatorFacts.

(* ================================================================= *)
(** ** Properties of the evaluator *)

Section EvaluatorFacts.
Import Comparator Tautology FixParser Samples.

Lemma evalAnd_cons (v : Verdict) (vs : list Verdict) :
  evalAnd (v :: vs) = andStep v (evalAnd vs).
Proof. reflexivity. Qed.

Lemma evalOr_cons (v : Verdict) (vs : list Verdict) :
  evalOr (v :: vs) = orStep v (evalOr vs).
Proof. reflexivity. Qed.

Lemma evalAnd_false (vs : list Verdict) :
  Exists (fun v => v = AlwaysFalse) vs -> evalAnd vs = AlwaysFalse.
Proof.
  induction 1 as [v vs Hv | v vs _ IH]; rewrite evalAnd_cons.
  - subst v. reflexivity.
  - rewrite IH. destruct v; reflexivity.
Qed.

Lemma evalAnd_true (vs : list Verdict) :
  evalAnd vs = AlwaysTrue <-> Forall (fun v => v = AlwaysTrue) vs.
Proof.
  induction vs as [| v vs IH].
  - split; [constructor | reflexivity].
  - rewrite evalAnd_cons. split.
    + intros H. destruct v, (evalAnd vs); try discriminate H.
      constructor; [reflexivity | apply IH; reflexivity].
    + intros H. inversion H as [| ? ? Hv Hvs]; subst.
      apply IH in Hvs. rewrite Hvs. reflexivity.
Qed.

Lemma evalAnd_false_inv (vs : list Verdict) :
  evalAnd vs = AlwaysFalse -> Exists (fun v => v = AlwaysFalse) vs.
Proof.
  induction vs as [| v vs IH]; [discriminate |].
  rewrite evalAnd_cons. intros E.
  destruct v; [right | left; reflexivity | right];
    apply IH; destruct (evalAnd vs); try discriminate E; reflexivity.
Qed.

Lemma evalAnd_depends (vs : list Verdict) :
  ~ Exists (fun v => v = AlwaysFalse) vs ->
  ~ Forall (fun v => v = AlwaysTrue) vs ->
  evalAnd vs = DependsOnData.
Proof.
  intros Hnone Hnotall.
  destruct (evalAnd vs) eqn:E; [ | | reflexivity].
  - exfalso. apply Hnotall, evalAnd_true, E.
  - exfalso. apply Hnone, evalAnd_false_inv, E.
Qed.

Lemma evalOr_true (vs : list Verdict) :
  Exists (fun v => v = AlwaysTrue) vs -> evalOr vs = AlwaysTrue.
Proof.
  induction 1 as [v vs Hv | v vs _ IH]; rewrite evalOr_cons.
  - subst v. reflexivity.
  - rewrite IH. destruct v; reflexivity.
Qed.

Lemma evalOr_false (vs : list Verdict) :
  evalOr vs = AlwaysFalse <-> Forall (fun v => v = AlwaysFalse) vs.
Proof.
  induction vs as [| v vs IH].
  - split; [constructor | reflexivity].
  - rewrite evalOr_cons. split.
    + intros H. destruct v, (evalOr vs); try discriminate H.
      constructor; [reflexivity | apply IH; reflexivity].
    + intros H. inversion H as [| ? ? Hv Hvs]; subst.
      apply IH in Hvs. rewrite Hvs. reflexivity.
Qed.

Lemma evalOr_true_inv (vs : list Verdict) :
  evalOr vs = AlwaysTrue -> Exists (fun v => v = AlwaysTrue) vs.
Proof.
  induction vs as [| v vs IH]; [discriminate |].
  rewrite evalOr_cons. intros E.
  destruct v; [left; reflexivity | right | right];
    apply IH; destruct (evalOr vs); try discriminate E; reflexivity.
Qed.

Lemma evalOr_depends (vs : list Verdict) :
  ~ Exists (fun v => v = AlwaysTrue) vs ->
  ~ Forall (fun v => v = AlwaysFalse) vs ->
  evalOr vs = DependsOnData.
Proof.
  intros Hnone Hnotall.
  destruct (evalOr vs) eqn:E; [ | | reflexivity].
  - exfalso. apply Hnone, evalOr_true_inv, E.
  - exfalso. apply Hnotall, evalOr_false, E.
Qed.

Lemma isAlwaysTrue_iff (v : Verdict) : isAlwaysTrue v = true <-> v = AlwaysTrue.
Proof. destruct v; simpl; split; intros H; try discriminate; reflexivity. Qed.

Lemma evaluate_AND (operands : list ConditionExpr) :
  evaluate (Logical AND operands) = evalAnd (map evaluate operands).
Proof. reflexivity. Qed.

Lemma evaluate_OR (operands : list ConditionExpr) :
  evaluate (Logical OR operands) = evalOr (map evaluate operands).
Proof. reflexivity. Qed.

Lemma detected_iff_guard (stmt : SelectStmt) (w : ExprNode) :
  Where stmt = Some w ->
  IsDetected (resultOf (DetectTautology stmt fresh)) = isTautologyCondition (Some w).
Proof.
  intros Hw. unfold DetectTautology, fix_fragment_issue. rewrite Hw.
  destruct (isTautologyCondition (Some w)); reflexivity.
Qed.

(** C1: an AND node is [AlwaysFalse] if some operand is, [AlwaysTrue]
    exactly when all operands are, and [DependsOnData] otherwise; an OR
    node is [AlwaysTrue] if some operand is, [AlwaysFalse] exactly when
    all operands are, and [DependsOnData] otherwise; a statement's filter
    is reported exactly when its root evaluates to [AlwaysTrue]:
    [WHERE 1=1 AND age > 18] is not, [WHERE status = 'x' OR 1=1] is. *)
Theorem logical_evaluation (operands : list ConditionExpr) :
  let some v := Exists (fun o => evaluate o = v) operands in
  let all v := Forall (fun o => evaluate o = v) operands in
  ((some AlwaysFalse -> evaluate (Logical AND operands) = AlwaysFalse) /\
   (evaluate (Logical AND operands) = AlwaysTrue <-> all AlwaysTrue) /\
   (~ some AlwaysFalse -> ~ all AlwaysTrue ->
      evaluate (Logical AND operands) = DependsOnData)) /\
  ((some AlwaysTrue -> evaluate (Logical OR operands) = AlwaysTrue) /\
   (evaluate (Logical OR operands) = AlwaysFalse <-> all AlwaysFalse) /\
   (~ some AlwaysTrue -> ~ all AlwaysFalse ->
      evaluate (Logical OR operands) = DependsOnData)) /\
  (forall stmt w, Where stmt = Some w ->
     (IsDetected (resultOf (DetectTautology stmt fresh)) = true
        <-> evaluate (Expr w) = AlwaysTrue)) /\
  (evaluate (Logical AND [one_eq_one; age_gt_18]) = DependsOnData /\
   DetectTautology stmt_and fresh = Returned fresh) /\
  (evaluate (Logical OR [status_eq_x; one_eq_one]) = AlwaysTrue /\
   IsDetected (resultOf (DetectTautology stmt_or fresh)) = true).
Proof.
  cbv zeta. rewrite evaluate_AND, evaluate_OR.
  repeat rewrite <- (Exists_map evaluate (fun v => v = _)).
  repeat rewrite <- (Forall_map evaluate (fun v => v = _)).
  split; [| split; [| split; [| split]]].
  - split; [apply evalAnd_false | split; [apply evalAnd_true | apply evalAnd_depends]].
  - split; [apply evalOr_true | split; [apply evalOr_false | apply evalOr_depends]].
  - intros stmt w Hw. rewrite (detected_iff_guard stmt w Hw).
    apply isAlwaysTrue_iff.
  - split; reflexivity.
  - split; reflexivity.
Qed.

End EvaluatorFacts.

(* ================================================================= *)
(** ** Properties of the report block *)

Section GoStringFacts.
Import GoString.

Lemma len_cons (c : ascii) (s : string) : len (String.String c s) = 1 + len s.
Proof. unfold len. simpl String.length. lia. Qed.

Lemma isASCIIByte_not_continuation (c : ascii) :
  isASCIIByte c = true -> isContinuation c = false.
Proof.
  destruct c as [b0 b1 b2 b3 b4 b5 b6 b7].
  destruct b7; [| destruct b0, b1, b2, b3, b4, b5, b6; reflexivity].
  destruct b0, b1, b2, b3, b4, b5, b6; discriminate.
Qed.

(** On ASCII text the number of bytes is the number of characters. *)
Lemma charCount_ascii (s : string) : isASCII s = true -> charCount s = len s.
Proof.
  induction s as [| c s IH]; [reflexivity |].
  cbn [isASCII charCount]. rewrite andb_true_iff, len_cons.
  intros [Hc Hs]. rewrite (isASCIIByte_not_continuation c Hc), (IH Hs).
  reflexivity.
Qed.

(** Every character takes at least one byte. *)
Lemma charCount_le_len (s : string) : charCount s <= len s.
Proof.
  induction s as [| c s IH]; [reflexivity |].
  cbn [charCount]. rewrite len_cons. destruct (isContinuation c); lia.
Qed.

End GoStringFacts.

Section BlockFacts.
Import GoString Tautology FixParser Samples.

Variable isTaut : option ExprNode -> bool.

(** The detail the block builds for a statement and its filter. *)
Local Abbreviation detailOf stmt w :=
  {| Pattern := "tautology_injection";
     Position := OriginTextPosition stmt;
     Length := len (whereTextOf w);
     Fragment := whereTextOf w |}.

(** The state of [result] after a report of [d]. *)
Local Abbreviation reported result d :=
  {| IsDetected := true; Details := (Details result ++ [d])%list |}.

Lemma new_lines_some (stmt : SelectStmt) (w : ExprNode) (result : DetectionResult) :
  Where stmt = Some w ->
  new_lines stmt result
    = Returned (reported result (detailOf stmt w)).
Proof. intros Hw. unfold new_lines. rewrite Hw. reflexivity. Qed.

(** The two places of the script that write the block write the same
    statements: [fix_fragment_issue] writes those of [new_lines] under
    the guard. *)
Lemma fix_fragment_issue_new_lines (stmt : SelectStmt) (result : DetectionResult) :
  fix_fragment_issue isTaut stmt result
    = if isTaut (Where stmt) then new_lines stmt result else Returned result.
Proof. reflexivity. Qed.

Lemma fix_fragment_issue_detected
    (stmt : SelectStmt) (w : ExprNode) (result : DetectionResult) :
  Where stmt = Some w ->
  isTaut (Some w) = true ->
  fix_fragment_issue isTaut stmt result
    = Returned (reported result (detailOf stmt w)).
Proof.
  intros Hw Ht. rewrite fix_fragment_issue_new_lines, Hw, Ht.
  apply new_lines_some, Hw.
Qed.

Lemma fix_fragment_issue_skipped (stmt : SelectStmt) (result : DetectionResult) :
  isTaut (Where stmt) = false ->
  fix_fragment_issue isTaut stmt result = Returned result.
Proof. intros Ht. rewrite fix_fragment_issue_new_lines, Ht. reflexivity. Qed.

Lemma whereTextOf_nonempty (w : ExprNode) : whereTextOf w <> "".
Proof.
  unfold whereTextOf.
  destruct (String.eqb (OriginalText w) "") eqn:E; [discriminate |].
  apply String.eqb_neq, E.
Qed.

Lemma whereTextOf_text (w : ExprNode) :
  OriginalText w <> "" -> whereTextOf w = OriginalText w.
Proof.
  intros Hne. unfold whereTextOf.
  apply String.eqb_neq in Hne. rewrite Hne. reflexivity.
Qed.

Lemma whereTextOf_empty (w : ExprNode) :
  OriginalText w = "" ->
  whereTextOf w = "WHERE clause with tautology condition".
Proof. intros He. unfold whereTextOf. rewrite He. reflexivity. Qed.

Lemma invariant_appended (result : DetectionResult) (d : InjectionDetail) :
  invariant (reported result d).
Proof.
  unfold invariant. cbn [IsDetected Details]. split; [| reflexivity].
  intros _ H. destruct (Details result); discriminate H.
Qed.

(** C3: when the filter of a statement is a tautology, the block appends
    exactly one detail to the details the result already holds. *)
Theorem one_detail_per_statement
    (stmt : SelectStmt) (w : ExprNode) (result : DetectionResult)
    (Hw : Where stmt = Some w) (Ht : isTaut (Some w) = true) :
  exists d,
    fix_fragment_issue isTaut stmt result = Returned (reported result d) /\
    List.length (Details (resultOf (fix_fragment_issue isTaut stmt result)))
      = S (List.length (Details result)).
Proof.
  rewrite (fix_fragment_issue_detected stmt w result Hw Ht).
  eexists. split; [reflexivity |].
  cbn [resultOf Details]. rewrite length_app. simpl. lia.
Qed.

(** C4, amended: the position of the appended detail is the start offset
    of the statement, as [stmt.OriginTextPosition()] gives it. *)
Theorem position_is_statement_offset
    (stmt : SelectStmt) (w : ExprNode) (result : DetectionResult)
    (Hw : Where stmt = Some w) (Ht : isTaut (Some w) = true) :
  exists d,
    fix_fragment_issue isTaut stmt result = Returned (reported result d) /\
    Position d = OriginTextPosition stmt.
Proof.
  rewrite (fix_fragment_issue_detected stmt w result Hw Ht).
  eexists. split; reflexivity.
Qed.

(** C5, amended: the fragment of the appended detail is the source text
    of the filter, or the placeholder when that text is empty, and is
    never empty; the length is the number of bytes of the fragment, which
    is its number of characters when the fragment is ASCII and is never
    less. *)
Theorem fragment_and_length
    (stmt : SelectStmt) (w : ExprNode) (result : DetectionResult)
    (Hw : Where stmt = Some w) (Ht : isTaut (Some w) = true) :
  exists d,
    fix_fragment_issue isTaut stmt result = Returned (reported result d) /\
    (OriginalText w <> "" -> Fragment d = OriginalText w) /\
    (OriginalText w = "" ->
       Fragment d = "WHERE clause with tautology condition") /\
    Fragment d <> "" /\
    Length d = len (Fragment d) /\
    (isASCII (Fragment d) = true -> Length d = charCount (Fragment d)) /\
    charCount (Fragment d) <= Length d.
Proof.
  rewrite (fix_fragment_issue_detected stmt w result Hw Ht).
  eexists. split; [reflexivity |]. cbn [Fragment Length].
  split; [apply whereTextOf_text |].
  split; [apply whereTextOf_empty |].
  split; [apply whereTextOf_nonempty |].
  split; [reflexivity |].
  split; [| apply charCount_le_len].
  intros Hascii. symmetry. apply charCount_ascii, Hascii.
Qed.

(** C10: when the source text of the filter is empty, the fragment of the
    appended detail is the text "WHERE clause with tautology condition"
    and the length is the length of that text, 37. *)
Theorem placeholder_text
    (stmt : SelectStmt) (w : ExprNode) (result : DetectionResult)
    (Hw : Where stmt = Some w) (Hempty : OriginalText w = "")
    (Ht : isTaut (Some w) = true) :
  exists d,
    fix_fragment_issue isTaut stmt result = Returned (reported result d) /\
    Fragment d = "WHERE clause with tautology condition" /\
    Length d = len "WHERE clause with tautology condition" /\
    Length d = 37.
Proof.
  rewrite (fix_fragment_issue_detected stmt w result Hw Ht).
  eexists. split; [reflexivity |]. cbn [Fragment Length].
  rewrite (whereTextOf_empty w Hempty). repeat split.
Qed.

(** Both places of the script write the same report: under a guard that
    holds, the statements of [fix_fragment_issue] do what those of
    [new_lines] do; under one that fails they do nothing. *)
Theorem patch_sites_agree (stmt : SelectStmt) (result : DetectionResult) :
  (isTaut (Where stmt) = true ->
     fix_fragment_issue isTaut stmt result = new_lines stmt result) /\
  (isTaut (Where stmt) = false ->
     fix_fragment_issue isTaut stmt result = Returned result).
Proof.
  unfold fix_fragment_issue, new_lines.
  split; intros Ht; rewrite Ht; reflexivity.
Qed.

(** The appended detail carries the fixed tag [tautology_injection]. *)
Theorem pattern_tag
    (stmt : SelectStmt) (w : ExprNode) (result : DetectionResult)
    (Hw : Where stmt = Some w) (Ht : isTaut (Some w) = true) :
  exists d,
    fix_fragment_issue isTaut stmt result = Returned (reported result d) /\
    Pattern d = "tautology_injection".
Proof.
  rewrite (fix_fragment_issue_detected stmt w result Hw Ht).
  eexists. split; reflexivity.
Qed.

End BlockFacts.

Section DetectorFacts.
Import GoString Tautology FixParser Samples.

Local Abbreviation reported result d :=
  {| IsDetected := true; Details := (Details result ++ [d])%list |}.

Lemma DetectTautology_returns (stmt : SelectStmt) (result : DetectionResult) :
  DetectTautology stmt result = Returned result /\
    isTautologyCondition (Where stmt) = false
  \/
  exists w d,
    Where stmt = Some w /\ isTautologyCondition (Where stmt) = true /\
    DetectTautology stmt result = Returned (reported result d).
Proof.
  destruct (Where stmt) as [w |] eqn:Hw.
  - destruct (isTautologyCondition (Some w)) eqn:Ht.
    + right. exists w. eexists.
      split; [reflexivity | split; [reflexivity |]].
      apply (fix_fragment_issue_detected isTautologyCondition stmt w result Hw Ht).
    + left. split; [| reflexivity].
      apply (fix_fragment_issue_skipped isTautologyCondition).
      rewrite Hw. exact Ht.
  - left. split; [| reflexivity].
    apply (fix_fragment_issue_skipped isTautologyCondition).
    rewrite Hw. reflexivity.
Qed.

(** C2, amended: a run of the detector returns; it either leaves the
    result as it was or sets the flag and appends one detail, never one
    without the other; the invariant holds afterwards whenever it held
    before, and in general exactly when it held before or a tautology was
    reported. *)
Theorem invariant_after_run (stmt : SelectStmt) (result : DetectionResult) :
  exists result',
    DetectTautology stmt result = Returned result' /\
    (invariant result -> invariant result') /\
    (invariant result' <->
       isTautologyCondition (Where stmt) = true \/ invariant result) /\
    (result' = result \/
     IsDetected result' = true /\
       exists d, Details result' = (Details result ++ [d])%list).
Proof.
  destruct (DetectTautology_returns stmt result)
    as [[Hrun Ht] | (w & d & Hw & Ht & Hrun)]; rewrite Hrun, Ht.
  - exists result.
    split; [reflexivity | split; [tauto | split; [| left; reflexivity]]].
    split; [intros Hinv; right; exact Hinv |].
    intros [Habs | Hinv]; [discriminate Habs | exact Hinv].
  - pose proof (invariant_appended result d) as Hinv.
    exists (reported result d).
    split; [reflexivity | split; [tauto | split]].
    + split; [intros _; left; reflexivity | intros _; exact Hinv].
    + right. split; [reflexivity | exists d; reflexivity].
Qed.

End DetectorFacts.

(* ================================================================= *)
(** ** The properties at concrete statements *)

Section Instances.
Import GoString Comparator Tautology FixParser Samples.

Local Abbreviation reported result d :=
  {| IsDetected := true; Details := (Details result ++ [d])%list |}.

(** [WHERE status = 'x' OR 1=1] and [WHERE 1=1 OR 2=2] each produce one
    detail. *)
Lemma one_detail_per_statement_witness :
  (Where stmt_or = Some where_or /\
   isTautologyCondition (Some where_or) = true /\
   exists d,
     fix_fragment_issue isTautologyCondition stmt_or fresh
       = Returned (reported fresh d) /\
     List.length
       (Details (resultOf (fix_fragment_issue isTautologyCondition stmt_or fresh)))
       = 1%nat) /\
  (exists d,
     fix_fragment_issue isTautologyCondition stmt_two fresh
       = Returned (reported fresh d) /\
     List.length
       (Details (resultOf (fix_fragment_issue isTautologyCondition stmt_two fresh)))
       = 1%nat).
Proof.
  split; [split; [reflexivity | split; [reflexivity |]] |].
  - apply (one_detail_per_statement isTautologyCondition stmt_or where_or fresh);
      reflexivity.
  - apply (one_detail_per_statement isTautologyCondition stmt_two where_two fresh);
      reflexivity.
Defined.

Lemma position_is_statement_offset_witness :
  Where stmt_literal = Some where_literal /\
  isTautologyCondition (Some where_literal) = true /\
  exists d,
    fix_fragment_issue isTautologyCondition stmt_literal fresh
      = Returned (reported fresh d) /\
    Position d = 0.
Proof.
  split; [reflexivity | split; [reflexivity |]].
  apply (position_is_statement_offset
           isTautologyCondition stmt_literal where_literal fresh);
    reflexivity.
Defined.

(** C4 as stated fails on [SELECT * FROM users WHERE 1=1]: the filter
    starts at offset 26 of the statement, the reported position is 0. *)
Lemma position_not_clause_offset :
  exists d,
    DetectTautology stmt_literal fresh = Returned (reported fresh d) /\
    substring 26 3 (OriginalText stmt_literal) = OriginalText where_literal /\
    OriginTextPosition where_literal = 26 /\
    Position d = 0 /\
    Position d <> OriginTextPosition where_literal.
Proof.
  eexists. split; [reflexivity |].
  repeat split. discriminate.
Qed.

Lemma fragment_and_length_witness :
  Where stmt_or = Some where_or /\
  isTautologyCondition (Some where_or) = true /\
  exists d,
    fix_fragment_issue isTautologyCondition stmt_or fresh
      = Returned (reported fresh d) /\
    (OriginalText where_or <> "" -> Fragment d = OriginalText where_or) /\
    (OriginalText where_or = "" ->
       Fragment d = "WHERE clause with tautology condition") /\
    Fragment d <> "" /\
    Length d = len (Fragment d) /\
    (isASCII (Fragment d) = true -> Length d = charCount (Fragment d)) /\
    charCount (Fragment d) <= Length d.
Proof.
  split; [reflexivity | split; [reflexivity |]].
  apply (fragment_and_length isTautologyCondition stmt_or where_or fresh);
    reflexivity.
Defined.

(** C5 as stated fails on a filter with a two-byte character: the
    fragment has 17 characters and the reported length is 18. *)
Lemma length_not_character_count :
  exists d,
    DetectTautology stmt_accent fresh = Returned (reported fresh d) /\
    Fragment d = OriginalText where_accent /\
    charCount (Fragment d) = 17 /\
    Length d = 18 /\
    Length d <> charCount (Fragment d).
Proof.
  eexists. split; [reflexivity |].
  repeat split. discriminate.
Qed.

Lemma placeholder_text_witness :
  Where stmt_no_span = Some where_no_span /\
  OriginalText where_no_span = "" /\
  isTautologyCondition (Some where_no_span) = true /\
  exists d,
    fix_fragment_issue isTautologyCondition stmt_no_span fresh
      = Returned (reported fresh d) /\
    Fragment d = "WHERE clause with tautology condition" /\
    Length d = len "WHERE clause with tautology condition" /\
    Length d = 37.
Proof.
  split; [reflexivity | split; [reflexivity | split; [reflexivity |]]].
  apply (placeholder_text isTautologyCondition stmt_no_span where_no_span fresh);
    reflexivity.
Defined.

Lemma pattern_tag_witness :
  Where stmt_literal = Some where_literal /\
  isTautologyCondition (Some where_literal) = true /\
  exists d,
    fix_fragment_issue isTautologyCondition stmt_literal fresh
      = Returned (reported fresh d) /\
    Pattern d = "tautology_injection".
Proof.
  split; [reflexivity | split; [reflexivity |]].
  apply (pattern_tag isTautologyCondition stmt_literal where_literal fresh);
    reflexivity.
Defined.

(** C2 as stated fails on a result that breaks the invariant on entry:
    after a run on [WHERE age > 18] the flag is still set and there is
    still no detail. *)
Lemma invariant_not_restored :
  exists result',
    DetectTautology stmt_age flag_only = Returned result' /\
    IsDetected result' = true /\
    Details result' = [] /\
    ~ invariant result'.
Proof.
  exists flag_only. repeat split.
  intros [Hdet _]. apply Hdet; reflexivity.
Qed.

(** The remaining sample queries of the specification. *)

Example detect_literal :
  DetectTautology stmt_literal fresh
    = Returned {| IsDetected := true;
                  Details := [ {| Pattern := "tautology_injection";
                                  Position := 0;
                                  Length := 3;
                                  Fragment := "1=1" |} ] |}.
Proof. reflexivity. Qed.

Example detect_self_reference :
  IsDetected (resultOf (DetectTautology stmt_self fresh)) = true.
Proof. reflexivity. Qed.

Example detect_non_tautology :
  DetectTautology stmt_age fresh = Returned fresh.
Proof. reflexivity. Qed.

Example detect_no_where :
  DetectTautology stmt_no_where fresh = Returned fresh.
Proof. reflexivity. Qed.

(** The body alone relies on its guard: on a statement without a filter
    it stops at the call on [stmt.Where], after the flag was set. *)
Example new_lines_without_filter :
  new_lines stmt_no_where fresh = Panicked flag_only.
Proof. reflexivity. Qed.

(** Under the guard the detector always runs to its end. *)
Lemma DetectTautology_total (stmt : SelectStmt) (result : DetectionResult) :
  exists result', DetectTautology stmt result = Returned result'.
Proof.
  destruct (DetectTautology_returns stmt result)
    as [[Hrun _] | (w & d & _ & _ & Hrun)]; rewrite Hrun; eexists; reflexivity.
Qed.

End Instances.

(* ================================================================= *)
(** ** Properties of the scripts *)

Section PyFacts.
Local Open Scope list_scope.
Local Open Scope nat_scope.
Import Scripts.Py.

Lemma str_eqb_eq (a b : str) : str_eqb a b = true <-> a = b.
Proof.
  revert b. induction a as [| x a IH]; intros [| y b]; simpl;
    try (split; [discriminate | discriminate]); [tauto |].
  rewrite andb_true_iff, N.eqb_eq, IH.
  split; [intros [Hx Ha]; subst; reflexivity | intros H; inversion H; auto].
Qed.

Lemma startswith_iff (prefix s : str) :
  startswith prefix s = true <-> exists post, s = prefix ++ post.
Proof.
  revert s. induction prefix as [| x prefix IH]; intros s.
  - simpl. split; [intros _; exists s; reflexivity | reflexivity].
  - destruct s as [| y s]; simpl.
    + split; [discriminate | intros [post H]; discriminate H].
    + rewrite andb_true_iff, N.eqb_eq, IH. split.
      * intros [Hx [post Hs]]. subst. exists post. reflexivity.
      * intros [post H]. inversion H. split; [reflexivity | exists post; reflexivity].
Qed.

(** [needle in s] holds exactly when [needle] occurs in [s]. *)
Lemma contains_iff (needle s : str) :
  contains needle s = true <-> exists pre post, s = pre ++ needle ++ post.
Proof.
  induction s as [| c s IH].
  - simpl. rewrite orb_false_r, startswith_iff. split.
    + intros [post H]. exists [], post. exact H.
    + intros (pre & post & H). destruct pre; [exists post; exact H |].
      discriminate H.
  - cbn [contains]. rewrite orb_true_iff, startswith_iff, IH. split.
    + intros [[post H] | (pre & post & H)].
      * exists [], post. exact H.
      * exists (c :: pre), post. rewrite H. reflexivity.
    + intros (pre & post & H). destruct pre as [| c' pre].
      * left. exists post. exact H.
      * right. inversion H. exists pre, post. reflexivity.
Qed.

(** A text that contains [a] contains every text that occurs in [a]. *)
Lemma contains_trans (b a s : str) :
  contains b a = true -> contains a s = true -> contains b s = true.
Proof.
  rewrite !contains_iff. intros (p1 & q1 & Ha) (p2 & q2 & Hs).
  exists (p2 ++ p1), (q1 ++ q2). rewrite Hs, Ha.
  rewrite <- !app_assoc. reflexivity.
Qed.

Lemma split_not_nil (sep : char) (s : str) : split sep s <> [].
Proof.
  destruct s as [| c s]; simpl; [discriminate |].
  destruct (N.eqb c sep); [discriminate |].
  destruct (split sep s); discriminate.
Qed.

Lemma join_cons (sep piece : str) (pieces : list str) :
  pieces <> [] ->
  join sep (piece :: pieces) = piece ++ sep ++ join sep pieces.
Proof. destruct pieces; [congruence | reflexivity]. Qed.

(** Joining the pieces of a split with the separator gives the text back. *)
Lemma join_split (sep : char) (s : str) : join [sep] (split sep s) = s.
Proof.
  induction s as [| c s IH]; [reflexivity |].
  cbn [split]. pose proof (split_not_nil sep s) as Hne.
  destruct (N.eqb c sep) eqn:Hc.
  - apply N.eqb_eq in Hc. subst c.
    rewrite join_cons by exact Hne. rewrite IH. reflexivity.
  - destruct (split sep s) as [| piece pieces]; [congruence |].
    destruct pieces as [| piece' pieces].
    + simpl in *. rewrite IH. reflexivity.
    + rewrite join_cons by discriminate. rewrite join_cons in IH by discriminate.
      rewrite <- IH. reflexivity.
Qed.



Lemma split_free (sep : char) (s : str) :
  free_of sep s -> split sep s = [s].
Proof.
  unfold free_of. induction s as [| c s IH]; [reflexivity |].
  intros Hfree. cbn [split].
  destruct (N.eqb c sep) eqn:Hc.
  - apply N.eqb_eq in Hc. exfalso. apply Hfree. left. exact Hc.
  - rewrite IH; [reflexivity |]. intros Hin. apply Hfree. right. exact Hin.
Qed.

Lemma split_app_sep (sep : char) (piece rest : str) :
  free_of sep piece ->
  split sep (piece ++ sep :: rest) = piece :: split sep rest.
Proof.
  unfold free_of. induction piece as [| c piece IH]; intros Hfree.
  - simpl. rewrite N.eqb_refl. reflexivity.
  - cbn [app split].
    destruct (N.eqb c sep) eqn:Hc.
    + apply N.eqb_eq in Hc. exfalso. apply Hfree. left. exact Hc.
    + rewrite IH; [reflexivity |]. intros Hin. apply Hfree. right. exact Hin.
Qed.

(** Splitting a join of pieces free of the separator gives the pieces
    back, when there is at least one. *)
Lemma split_join (sep : char) (pieces : list str) :
  pieces <> [] -> Forall (free_of sep) pieces ->
  split sep (join [sep] pieces) = pieces.
Proof.
  induction pieces as [| piece pieces IH]; [congruence |].
  intros _ Hfree. inversion Hfree as [| ? ? Hp Hps]; subst.
  destruct pieces as [| piece' pieces].
  - simpl. apply split_free, Hp.
  - rewrite join_cons by discriminate. cbn [app].
    rewrite split_app_sep by exact Hp.
    rewrite IH; [reflexivity | discriminate | exact Hps].
Qed.

Lemma split_pieces_free (sep : char) (s : str) :
  Forall (free_of sep) (split sep s).
Proof.
  induction s as [| c s IH]; [repeat constructor; intros [] |].
  cbn [split]. destruct (N.eqb c sep) eqn:Hc.
  - constructor; [intros [] | exact IH].
  - destruct (split sep s) as [| piece pieces].
    + repeat constructor. intros [H | []]. apply N.eqb_neq in Hc. congruence.
    + inversion IH as [| ? ? Hp Hps]; subst. constructor; [| exact Hps].
      intros [H | H]; [apply N.eqb_neq in Hc; congruence | exact (Hp H)].
Qed.

End PyFacts.

Section FixParserScriptFacts.
Local Open Scope list_scope.
Local Open Scope nat_scope.
Import Scripts.Py Scripts.fix_parser.

Lemma patch_loop_find (range : list nat) (lines : list str) :
  patch_loop range lines
    = match find (is_site lines) range with
      | Some i => assign_slice i (i + 4) new_lines lines
      | None => lines
      end.
Proof.
  induction range as [| i range IH]; [reflexivity |].
  cbn [patch_loop find]. unfold is_site at 1.
  destruct (sets_flag i lines); [| exact IH].
  destruct (fragment_below i lines); [| exact IH].
  destruct (uses_where_text i lines); [reflexivity | exact IH].
Qed.

Lemma patched_first_site (lines : list str) :
  patched lines
    = match first_site lines with
      | Some i => firstn i lines ++ new_lines ++ skipn (i + 4) lines
      | None => lines
      end.
Proof. apply patch_loop_find. Qed.

Lemma main_written (content : str) :
  written (main content) = Some (join [newline] (patched (split newline content))).
Proof. reflexivity. Qed.

Lemma is_site_bounds (lines : list str) (i : nat) :
  is_site lines i = true -> 90 < i /\ i + 2 < List.length lines.
Proof.
  unfold is_site, sets_flag, fragment_below.
  rewrite !andb_true_iff, !Nat.ltb_lt. tauto.
Qed.

Lemma find_seq_Some (f : nat -> bool) (n a i : nat) :
  find f (seq a n) = Some i ->
  a <= i < a + n /\ f i = true /\ forall j, a <= j < i -> f j = false.
Proof.
  revert a. induction n as [| n IH]; intros a; [discriminate |].
  cbn [seq find]. destruct (f a) eqn:Ha.
  - intros H. inversion H; subst. repeat split; try lia. exact Ha.
  - intros H. destruct (IH _ H) as (Hr & Hi & Hlt).
    repeat split; try lia; [exact Hi |].
    intros j Hj. destruct (Nat.eq_dec j a) as [-> | Hne]; [exact Ha |].
    apply Hlt. lia.
Qed.

Lemma find_seq_None (f : nat -> bool) (n a : nat) :
  find f (seq a n) = None -> forall j, a <= j < a + n -> f j = false.
Proof.
  revert a. induction n as [| n IH]; intros a; [intros _ j Hj; lia |].
  cbn [seq find]. destruct (f a) eqn:Ha; [discriminate |].
  intros H j Hj. destruct (Nat.eq_dec j a) as [-> | Hne]; [exact Ha |].
  apply (IH _ H). lia.
Qed.

Lemma first_site_Some (lines : list str) (i : nat) :
  first_site lines = Some i ->
  is_site lines i = true /\ forall j, j < i -> is_site lines j = false.
Proof.
  intros H. destruct (find_seq_Some _ _ _ _ H) as (_ & Hi & Hlt).
  split; [exact Hi |]. intros j Hj. apply Hlt. lia.
Qed.

Lemma first_site_None (lines : list str) :
  first_site lines = None -> forall j, is_site lines j = false.
Proof.
  intros H j. destruct (is_site lines j) eqn:Hj; [| reflexivity].
  destruct (is_site_bounds _ _ Hj) as [_ Hlen].
  rewrite (find_seq_None _ _ _ H j) in Hj; [discriminate | lia].
Qed.

Lemma sites_iff (lines : list str) (j : nat) :
  In j (sites lines) <-> is_site lines j = true.
Proof.
  unfold sites. rewrite filter_In, in_seq. split; [tauto |].
  intros Hj. split; [| exact Hj].
  destruct (is_site_bounds _ _ Hj). lia.
Qed.

(** A text in which no index passes the three tests is written back as
    it was read. *)
Theorem main_without_site (content : str)
    (Hnone : first_site (split newline content) = None) :
  written (main content) = Some content.
Proof.
  rewrite main_written, patched_first_site, Hnone, join_split. reflexivity.
Qed.

(** The lines up to index 90 are never changed. *)
Theorem main_keeps_head (content : str) :
  firstn 91 (patched (split newline content)) = firstn 91 (split newline content).
Proof.
  rewrite patched_first_site.
  destruct (first_site (split newline content)) as [i |] eqn:Hs; [| reflexivity].
  destruct (first_site_Some _ _ Hs) as [Hi _].
  destruct (is_site_bounds _ _ Hi) as [Hgt Hlen].
  rewrite firstn_app, firstn_firstn, length_firstn.
  replace (Nat.min 91 i) with 91 by lia.
  replace (91 - Nat.min i (List.length (split newline content))) with 0 by lia.
  rewrite firstn_O, app_nil_r. reflexivity.
Qed.

(** At the first index that passes the tests, the four lines from that
    index on (three, when the text ends there) are replaced by the twelve
    lines of [new_lines]; every other line is kept. *)
Theorem main_at_site (content : str) (i : nat)
    (Hsite : first_site (split newline content) = Some i) :
  let lines := split newline content in
  written (main content)
    = Some (join [newline] (firstn i lines ++ new_lines ++ skipn (i + 4) lines)) /\
  90 < i /\ i + 3 <= List.length lines /\
  List.length (patched lines)
    = (if Nat.eqb (i + 3) (List.length lines)
       then List.length lines + 9 else List.length lines + 8).
Proof.
  cbv zeta. destruct (first_site_Some _ _ Hsite) as [Hi _].
  destruct (is_site_bounds _ _ Hi) as [Hgt Hlen].
  rewrite main_written, patched_first_site, Hsite.
  set (lines := split newline content) in *.
  split; [reflexivity | split; [exact Hgt | split; [lia |]]].
  rewrite !length_app, length_firstn, length_skipn.
  change (List.length new_lines) with 12.
  destruct (Nat.eqb_spec (i + 3) (List.length lines)); lia.
Qed.

(** The test of line 40 holds exactly when the line contains
    [Where.Text()]: its first alternative never decides. *)
Theorem uses_where_text_second (i : nat) (lines : list str) :
  uses_where_text i lines
    = contains (lit "Where.Text()") (nth (i + 2) lines []).
Proof.
  unfold uses_where_text.
  destruct (contains (lit "stmt.Where.Text()") (nth (i + 2) lines [])) eqn:H;
    [| reflexivity].
  rewrite (contains_trans (lit "Where.Text()") (lit "stmt.Where.Text()") _
             eq_refl H).
  reflexivity.
Qed.

(** *** After a patch *)

Section AfterPatch.
Local Open Scope list_scope.
Local Open Scope nat_scope.

Variables (lines : list str) (i : nat).
Hypothesis Hsite : first_site lines = Some i.

Let out : list str := firstn i lines ++ new_lines ++ skipn (i + 4) lines.

Lemma site_bounds : 90 < i /\ i + 2 < List.length lines.
Proof. apply is_site_bounds, first_site_Some, Hsite. Qed.

Lemma out_length :
  List.length out = i + 12 + (List.length lines - (i + 4)).
Proof.
  destruct site_bounds as [_ Hlen]. unfold out.
  rewrite !length_app, length_firstn, length_skipn.
  change (List.length new_lines) with 12. lia.
Qed.

Lemma out_before (j : nat) : j < i -> nth j out [] = nth j lines [].
Proof.
  destruct site_bounds as [_ Hlen]. intros Hj. unfold out.
  rewrite app_nth1 by (rewrite length_firstn; lia).
  rewrite <- (firstn_skipn i lines) at 2.
  rewrite app_nth1 by (rewrite length_firstn; lia). reflexivity.
Qed.

Lemma out_new (k : nat) : k < 12 -> nth (i + k) out [] = nth k new_lines [].
Proof.
  destruct site_bounds as [_ Hlen]. intros Hk. unfold out.
  rewrite app_nth2 by (rewrite length_firstn; lia).
  rewrite length_firstn. replace (i + k - Nat.min i (List.length lines)) with k by lia.
  rewrite app_nth1 by exact Hk. reflexivity.
Qed.

Lemma out_after (j : nat) : i + 12 <= j -> nth j out [] = nth (j - 8) lines [].
Proof.
  destruct site_bounds as [_ Hlen]. intros Hj. unfold out.
  rewrite app_nth2 by (rewrite length_firstn; lia).
  rewrite length_firstn.
  rewrite app_nth2 by (change (List.length new_lines) with 12; lia).
  change (List.length new_lines) with 12.
  rewrite nth_skipn. f_equal. lia.
Qed.

Lemma new_lines_no_flag (k : nat) :
  1 <= k < 12 ->
  contains (lit "result.IsDetected = true") (nth k new_lines []) = false.
Proof.
  intros Hk.
  assert (H : forallb (fun k => negb (contains (lit "result.IsDetected = true")
                                        (nth k new_lines []))) (seq 1 11) = true)
    by reflexivity.
  rewrite forallb_forall in H. apply negb_true_iff, H, in_seq. lia.
Qed.

Lemma new_lines_no_fragment_mark (k : nat) :
  k < 3 -> contains (lit "Fragment:") (nth k new_lines []) = false.
Proof.
  intros Hk.
  assert (H : forallb (fun k => negb (contains (lit "Fragment:")
                                        (nth k new_lines []))) (seq 0 3) = true)
    by reflexivity.
  rewrite forallb_forall in H. apply negb_true_iff, H, in_seq. lia.
Qed.

(** Every index that passes the tests after the patch lies behind the
    written lines and passed them, eight lines earlier, before. *)
Lemma site_after_patch (j : nat) :
  is_site out j = true -> i + 12 <= j /\ is_site lines (j - 8) = true.
Proof.
  destruct site_bounds as [Hgt Hlen].
  destruct (first_site_Some _ _ Hsite) as [_ Hfirst].
  intros Hj.
  destruct (Nat.lt_ge_cases j (i + 12)) as [Hlt | Hge].
  - exfalso. revert Hj. apply not_true_iff_false.
    unfold is_site, sets_flag, fragment_below.
    destruct (Nat.lt_ge_cases (j + 2) i) as [Hfar | Hnear].
    + rewrite (out_before j), (out_before (j + 2)) by lia.
      pose proof (Hfirst j ltac:(lia)) as Hno.
      unfold is_site, sets_flag, fragment_below in Hno.
      replace (Nat.ltb (j + 2) (List.length out)) with true
        by (symmetry; apply Nat.ltb_lt; rewrite out_length; lia).
      replace (Nat.ltb (j + 2) (List.length lines)) with true in Hno
        by (symmetry; apply Nat.ltb_lt; lia).
      unfold uses_where_text in *. rewrite (out_before (j + 2)) by lia.
      exact Hno.
    + destruct (Nat.lt_ge_cases j i) as [Hbefore | Hin].
      * replace (j + 2) with (i + (j + 2 - i)) by lia.
        rewrite out_new, new_lines_no_fragment_mark by lia.
        rewrite andb_false_r, andb_false_r. reflexivity.
      * destruct (Nat.eq_dec j i) as [-> | Hne].
        -- rewrite (out_new 2), (new_lines_no_fragment_mark 2) by lia.
           rewrite andb_false_r, andb_false_r. reflexivity.
        -- replace j with (i + (j - i)) at 1 by lia.
           rewrite out_new, new_lines_no_flag by lia. reflexivity.
  - split; [exact Hge |].
    unfold is_site, sets_flag, fragment_below, uses_where_text in *.
    rewrite (out_after j), (out_after (j + 2)) in Hj by lia.
    rewrite out_length in Hj.
    replace (j - 8 + 2) with (j + 2 - 8) by lia.
    rewrite !andb_true_iff, !orb_true_iff, !Nat.ltb_lt in *.
    intuition lia.
Qed.

(** A patch leaves strictly fewer indices that pass the tests. *)
Lemma fewer_sites_out : List.length (sites out) < List.length (sites lines).
Proof.
  destruct (first_site_Some _ _ Hsite) as [Hi _].
  assert (Hle : List.length (i :: map (fun j => j - 8) (sites out))
                <= List.length (sites lines)).
  { apply NoDup_incl_length.
    - constructor.
      + rewrite in_map_iff. intros (j & Hj & Hin).
        apply sites_iff, site_after_patch in Hin. lia.
      + apply NoDup_map_NoDup_ForallPairs.
        * intros x y Hx Hy Hxy.
          apply sites_iff, site_after_patch in Hx.
          apply sites_iff, site_after_patch in Hy. lia.
        * apply NoDup_filter, seq_NoDup.
    - intros j [<- | Hin]; [apply sites_iff, Hi |].
      rewrite in_map_iff in Hin. destruct Hin as (j' & <- & Hin).
      apply sites_iff. apply sites_iff, site_after_patch in Hin. tauto. }
  cbn [List.length] in Hle. rewrite length_map in Hle. lia.
Qed.

End AfterPatch.

(** Each run that patches a site leaves a text with strictly fewer
    indices that pass the tests, so that running the script again and
    again comes to a text it no longer changes. *)
Theorem main_fewer_sites (content : str) (i : nat)
    (Hsite : first_site (split newline content) = Some i) :
  exists content',
    written (main content) = Some content' /\
    List.length (sites (split newline content'))
      < List.length (sites (split newline content)).
Proof.
  eexists. split; [apply main_written |].
  rewrite patched_first_site, Hsite.
  rewrite split_join.
  - apply fewer_sites_out, Hsite.
  - destruct (firstn i (split newline content)); discriminate.
  - pose proof (split_pieces_free newline content) as Hfree.
    rewrite !Forall_app. repeat split.
    + apply Forall_forall. intros l Hl. rewrite Forall_forall in Hfree.
      apply Hfree. rewrite <- (firstn_skipn i). apply in_or_app. left. exact Hl.
    + apply Forall_forall. intros l Hl.
      assert (H : forallb (fun l => negb (existsb (N.eqb newline) l)) new_lines = true)
        by reflexivity.
      rewrite forallb_forall in H. specialize (H l Hl).
      apply negb_true_iff in H. intros Hin.
      assert (existsb (N.eqb newline) l = true)
        by (apply existsb_exists; exists newline; split; [exact Hin | apply N.eqb_refl]).
      congruence.
    + apply Forall_forall. intros l Hl. rewrite Forall_forall in Hfree.
      apply Hfree. rewrite <- (firstn_skipn (i + 4)). apply in_or_app. right. exact Hl.
Qed.

End FixParserScriptFacts.

Section FixFragmentIssueFacts.
Local Open Scope list_scope.
Local Open Scope nat_scope.
Import Scripts.Py Scripts.fix_parser.

Lemma insert_between {A : Type} (pre mid rest : list A) (x : A) :
  insert (List.length pre + List.length mid) x (pre ++ mid ++ rest)
    = pre ++ (mid ++ [x]) ++ rest.
Proof.
  unfold insert. rewrite app_assoc, <- length_app.
  rewrite firstn_app, firstn_all, Nat.sub_diag, firstn_O, app_nil_r.
  rewrite skipn_app, skipn_all, Nat.sub_diag. cbn [skipn app].
  rewrite <- !app_assoc. reflexivity.
Qed.

Lemma inserts_between (texts : list str) (pre mid rest : list str) (i s : nat) :
  List.length pre = i -> List.length mid = s ->
  fold_left (fun ls kx => insert (i + fst kx) (snd kx) ls)
    (combine (seq s (List.length texts)) texts) (pre ++ mid ++ rest)
    = pre ++ (mid ++ texts) ++ rest.
Proof.
  revert mid s. induction texts as [| x texts IH]; intros mid s Hpre Hmid.
  - simpl. rewrite app_nil_r. reflexivity.
  - cbn [List.length seq combine fold_left fst snd].
    rewrite <- Hpre, <- Hmid, insert_between.
    rewrite Hpre, Hmid.
    rewrite (IH (mid ++ [x]) (S s) Hpre) by (rewrite length_app; simpl; lia).
    rewrite <- !app_assoc. reflexivity.
Qed.

Lemma pops_behind (n : nat) (front rest : list str) :
  pops n (List.length front) (front ++ rest)
    = if Nat.leb n (List.length rest) then Ok (front ++ skipn n rest)
      else IndexError.
Proof.
  revert rest. induction n as [| n IH]; intros rest; [reflexivity |].
  cbn [pops]. unfold pop. rewrite length_app.
  destruct rest as [| r rest].
  - simpl. replace (List.length front + 0) with (List.length front) by lia.
    rewrite Nat.ltb_irrefl. reflexivity.
  - replace (Nat.ltb (List.length front) (List.length front + List.length (r :: rest)))
      with true by (symmetry; apply Nat.ltb_lt; simpl; lia).
    rewrite firstn_app, firstn_all, Nat.sub_diag, firstn_O, app_nil_r.
    rewrite skipn_app, skipn_all2 by lia.
    replace (S (List.length front) - List.length front) with 1 by lia.
    cbn [skipn app]. rewrite IH. reflexivity.
Qed.

(** The body of the loop in closed form. *)
Lemma rewrite_at_spec (i : nat) (lines : list str) :
  i < List.length lines ->
  rewrite_at i lines
    = if Nat.leb (i + 16) (List.length lines)
      then Ok (firstn i lines ++ block ++ skipn (i + 16) lines)
      else IndexError.
Proof.
  intros Hi. unfold rewrite_at, set_item.
  change inserted with (combine (seq 1 (List.length (map snd inserted)))
                          (map snd inserted)).
  change (guard_line :: skipn (S i) lines)
    with ([guard_line] ++ skipn (S i) lines).
  rewrite (inserts_between _ _ _ _ i 1)
    by (try reflexivity; rewrite length_firstn; lia).
  change ([guard_line] ++ map snd inserted) with block.
  rewrite app_assoc.
  replace (i + 14) with (List.length (firstn i lines ++ block))
    by (rewrite length_app, length_firstn; change (List.length block) with 14; lia).
  rewrite pops_behind, length_skipn, skipn_skipn, <- app_assoc.
  replace (15 + S i) with (i + 16) by lia.
  destruct (Nat.leb_spec 15 (List.length lines - S i));
    destruct (Nat.leb_spec (i + 16) (List.length lines)); try lia; reflexivity.
Qed.

Lemma fragment_loop_spec (n a : nat) (line_num : Z) (lines : list str) :
  fragment_loop (seq a n) line_num lines
    = if Z.leb (Z.of_nat a) (line_num - 1) && Z.ltb (line_num - 1) (Z.of_nat (a + n))
      then rewrite_at (Z.to_nat (line_num - 1)) lines
      else Ok lines.
Proof.
  revert a. induction n as [| n IH]; intros a.
  - simpl. destruct (Z.leb_spec (Z.of_nat a) (line_num - 1));
      destruct (Z.ltb_spec (line_num - 1) (Z.of_nat (a + 0))); try reflexivity; lia.
  - cbn [seq fragment_loop]. destruct (Z.eqb_spec (Z.of_nat a) (line_num - 1)) as [E | E].
    + rewrite <- E, Nat2Z.id.
      replace (Z.leb (Z.of_nat a) (Z.of_nat a)) with true by (symmetry; apply Z.leb_le; lia).
      replace (Z.ltb (Z.of_nat a) (Z.of_nat (a + S n))) with true
        by (symmetry; apply Z.ltb_lt; lia).
      reflexivity.
    + rewrite IH.
      destruct (Z.leb_spec (Z.of_nat (S a)) (line_num - 1));
        destruct (Z.leb_spec (Z.of_nat a) (line_num - 1));
        destruct (Z.ltb_spec (line_num - 1) (Z.of_nat (S a + n)));
        destruct (Z.ltb_spec (line_num - 1) (Z.of_nat (a + S n)));
        try reflexivity; lia.
Qed.

(** A line number outside the text leaves the text as it is. *)
Theorem fix_fragment_issue_out_of_range (content : str) (line_num : Z) (indent : str)
    (Hout : (line_num < 1 \/ Z.of_nat (List.length (split newline content)) < line_num)%Z) :
  fix_fragment_issue content line_num indent = Ok content.
Proof.
  unfold fix_fragment_issue. rewrite fragment_loop_spec.
  destruct (Z.leb_spec (Z.of_nat 0) (line_num - 1));
    destruct (Z.ltb_spec (line_num - 1) (Z.of_nat (0 + List.length (split newline content))));
    cbn [andb]; try (rewrite join_split; reflexivity).
  lia.
Qed.

(** With sixteen lines from [line_num] on, these sixteen are replaced by
    the fourteen lines of the block, the text gets two lines shorter and
    all other lines are kept. *)
Theorem fix_fragment_issue_replaces (content : str) (line_num : Z) (indent : str)
    (Hfirst : (1 <= line_num)%Z)
    (Hlast : (line_num + 15 <= Z.of_nat (List.length (split newline content)))%Z) :
  let lines := split newline content in
  let i := Z.to_nat (line_num - 1) in
  fix_fragment_issue content line_num indent
    = Ok (join [newline] (firstn i lines ++ block ++ skipn (i + 16) lines)) /\
  List.length (firstn i lines ++ block ++ skipn (i + 16) lines) + 2
    = List.length lines.
Proof.
  cbv zeta. set (lines := split newline content) in *.
  unfold fix_fragment_issue. fold lines. rewrite fragment_loop_spec.
  replace (Z.leb (Z.of_nat 0) (line_num - 1)) with true by (symmetry; apply Z.leb_le; lia).
  replace (Z.ltb (line_num - 1) (Z.of_nat (0 + List.length lines))) with true
    by (symmetry; apply Z.ltb_lt; lia).
  cbn [andb]. rewrite rewrite_at_spec by lia.
  replace (Nat.leb (Z.to_nat (line_num - 1) + 16) (List.length lines)) with true
    by (symmetry; apply Nat.leb_le; lia).
  split; [reflexivity |].
  rewrite !length_app, length_firstn, length_skipn.
  change (List.length block) with 14. lia.
Qed.

(** With fewer than sixteen lines from [line_num] on, the function
    raises [IndexError] and returns nothing. *)
Theorem fix_fragment_issue_raises (content : str) (line_num : Z) (indent : str)
    (Hfirst : (1 <= line_num)%Z)
    (Hin : (line_num <= Z.of_nat (List.length (split newline content)))%Z)
    (Hshort : (Z.of_nat (List.length (split newline content)) < line_num + 15)%Z) :
  fix_fragment_issue content line_num indent = IndexError.
Proof.
  set (lines := split newline content) in *.
  unfold fix_fragment_issue. fold lines. rewrite fragment_loop_spec.
  replace (Z.leb (Z.of_nat 0) (line_num - 1)) with true by (symmetry; apply Z.leb_le; lia).
  replace (Z.ltb (line_num - 1) (Z.of_nat (0 + List.length lines))) with true
    by (symmetry; apply Z.ltb_lt; lia).
  cbn [andb]. rewrite rewrite_at_spec by lia.
  replace (Nat.leb (Z.to_nat (line_num - 1) + 16) (List.length lines)) with false
    by (symmetry; apply Nat.leb_gt; lia).
  reflexivity.
Qed.

End FixFragmentIssueFacts.

Section FixBraceIssueFacts.
Local Open Scope list_scope.
Local Open Scope nat_scope.
Import Scripts.Py Scripts.fix_brace_issue.

(** A file of fewer than 594 lines is written back as it was read; from a
    longer one exactly line 594 is missing afterwards, the lines before
    it keep their place and the lines after it move up by one. *)
Theorem brace_line_removed (lines : list str) :
  exists new_lines,
    written (main lines) = Some new_lines /\
    (List.length lines < 594 -> new_lines = lines) /\
    (594 <= List.length lines ->
       List.length new_lines + 1 = List.length lines /\
       forall j, nth j new_lines []
                 = if Nat.ltb j 593 then nth j lines [] else nth (S j) lines []).
Proof.
  eexists. split; [reflexivity |]. split.
  - intros Hshort. rewrite skipn_all2 by lia. rewrite firstn_all2 by lia.
    apply app_nil_r.
  - intros Hlong. split.
    + rewrite length_app, length_firstn, length_skipn. lia.
    + intros j. destruct (Nat.ltb_spec j 593) as [Hj | Hj].
      * rewrite app_nth1 by (rewrite length_firstn; lia).
        rewrite <- (firstn_skipn 593 lines) at 2.
        rewrite app_nth1 by (rewrite length_firstn; lia). reflexivity.
      * rewrite app_nth2 by (rewrite length_firstn; lia).
        rewrite length_firstn, nth_skipn. f_equal. lia.
Qed.

End FixBraceIssueFacts.

Section FixMemorySourceFacts.
Local Open Scope list_scope.
Local Open Scope nat_scope.
Import Scripts.Py Scripts.fix_memory_source.

Lemma loop_app (l1 l2 : list str) (i : nat) (st : state) :
  loop i (l1 ++ l2) st = loop (i + List.length l1) l2 (loop i l1 st).
Proof.
  revert i st. induction l1 as [| line l1 IH]; intros i st.
  - simpl. rewrite Nat.add_0_r. reflexivity.
  - cbn [app loop List.length]. rewrite IH. f_equal. lia.
Qed.

Lemma step_definition_line (line : str) (st : state) :
  skip_count st = 0%Z ->
  contains (lit "func compareEqual(") line = true ->
  step 593 line st
    = {| new_lines := new_lines st; skip_count := 10; in_compare_equal := true |}.
Proof. intros Hskip Hneedle. unfold step. rewrite Hskip, Hneedle. reflexivity. Qed.

Lemma step_keeps (i : nat) (line : str) (st : state) :
  skip_count st = 0%Z ->
  i <> 593 \/ contains (lit "func compareEqual(") line = false ->
  new_lines (step i line st) = new_lines st ++ [line] /\
  skip_count (step i line st) = 0%Z.
Proof.
  intros Hskip Hcase. unfold step. rewrite Hskip. cbn [Z.ltb Z.compare andb].
  replace (Nat.eqb (i + 1) 594 && contains (lit "func compareEqual(") line)
    with false; [split; reflexivity |].
  symmetry. apply andb_false_iff.
  destruct Hcase as [Hi | Hneedle]; [left; apply Nat.eqb_neq; lia | right; exact Hneedle].
Qed.

(** Away from line 594 and with nothing left to skip, every line is
    kept. *)
Lemma loop_plain (lines : list str) (i : nat) (st : state) :
  skip_count st = 0%Z ->
  i + List.length lines <= 593 \/ 594 <= i ->
  new_lines (loop i lines st) = new_lines st ++ lines /\
  skip_count (loop i lines st) = 0%Z.
Proof.
  revert i st. induction lines as [| line lines IH]; intros i st Hskip Hrange.
  - simpl. rewrite app_nil_r. auto.
  - cbn [loop]. cbn [List.length] in Hrange.
    destruct (step_keeps i line st Hskip) as [Hnew Hzero]; [left; lia |].
    destruct (IH (S i) (step i line st) Hzero ltac:(lia)) as [Hn Hs].
    rewrite Hn, Hs, Hnew, <- app_assoc. auto.
Qed.

(** Behind line 594, a count of [k] lines to skip drops the next [k]
    lines and keeps the rest. *)
Lemma loop_skipping (lines : list str) (i k : nat) (st : state) :
  skip_count st = Z.of_nat k -> 594 <= i ->
  new_lines (loop i lines st) = new_lines st ++ skipn k lines.
Proof.
  revert i k st. induction lines as [| line lines IH]; intros i k st Hskip Hi.
  - simpl. rewrite skipn_nil, app_nil_r. reflexivity.
  - destruct k as [| k].
    + apply loop_plain; [exact Hskip | lia].
    + cbn [loop skipn].
      rewrite (IH (S i) k); [| | lia].
      * f_equal. unfold step. rewrite Hskip.
        replace (Z.ltb 0 (Z.of_nat (S k))) with true by (symmetry; apply Z.ltb_lt; lia).
        replace (Nat.ltb (i + 1) 594) with false by (symmetry; apply Nat.ltb_ge; lia).
        replace (Nat.eqb (i + 1) 594) with false by (symmetry; apply Nat.eqb_neq; lia).
        reflexivity.
      * unfold step. rewrite Hskip.
        replace (Z.ltb 0 (Z.of_nat (S k))) with true by (symmetry; apply Z.ltb_lt; lia).
        replace (Nat.ltb (i + 1) 594) with false by (symmetry; apply Nat.ltb_ge; lia).
        replace (Nat.eqb (i + 1) 594) with false by (symmetry; apply Nat.eqb_neq; lia).
        cbn [andb skip_count]. lia.
Qed.

(** When line 594 contains [func compareEqual(] the script drops the
    eleven lines 594 to 604, or as many of them as the file has, and
    keeps every other line in order; otherwise it writes the file back
    as it read it. *)
Theorem memory_source_closed_form (lines : list str) :
  written (main lines)
    = Some (if Nat.leb 594 (List.length lines)
               && contains (lit "func compareEqual(") (nth 593 lines [])
            then firstn 593 lines ++ skipn 604 lines
            else lines) /\
  (604 <= List.length lines ->
   contains (lit "func compareEqual(") (nth 593 lines []) = true ->
   List.length (firstn 593 lines ++ skipn 604 lines) + 11 = List.length lines).
Proof.
  split.
  2:{ intros Hlen _. rewrite length_app, length_firstn, length_skipn. lia. }
  unfold main. cbn [written]. f_equal.
  set (st0 := {| new_lines := []; skip_count := 0; in_compare_equal := false |}).
  destruct (Nat.leb_spec 594 (List.length lines)) as [Hlong | Hshort]; cbn [andb].
  2:{ apply (loop_plain lines 0 st0); [reflexivity | lia]. }
  rewrite <- (firstn_skipn 593 lines) at 1. rewrite loop_app.
  destruct (loop_plain (firstn 593 lines) 0 st0 eq_refl) as [Hpre Hzero];
    [rewrite length_firstn; lia |].
  rewrite length_firstn. replace (0 + Nat.min 593 (List.length lines)) with 593 by lia.
  set (st1 := loop 0 (firstn 593 lines) st0) in *. cbn [new_lines app] in Hpre.
  destruct (skipn 593 lines) as [| line post] eqn:Hpost.
  { apply (f_equal (@List.length str)) in Hpost. rewrite length_skipn in Hpost.
    simpl in Hpost. lia. }
  assert (Hline : nth 593 lines [] = line).
  { rewrite <- (Nat.add_0_r 593), <- nth_skipn, Hpost. reflexivity. }
  assert (Hrest : skipn 604 lines = skipn 10 post).
  { replace 604 with (11 + 593) by lia. rewrite <- skipn_skipn, Hpost. reflexivity. }
  rewrite Hline, Hrest. cbn [loop].
  destruct (contains (lit "func compareEqual(") line) eqn:Hneedle.
  - rewrite (step_definition_line line st1 Hzero Hneedle).
    rewrite (loop_skipping post 594 10); [| reflexivity | lia].
    cbn [new_lines]. rewrite Hpre. reflexivity.
  - destruct (step_keeps 593 line st1 Hzero) as [Hnew Hzero']; [right; exact Hneedle |].
    destruct (loop_plain post 594 (step 593 line st1) Hzero') as [Hall _]; [lia |].
    rewrite Hall, Hnew, Hpre, <- app_assoc. cbn [app].
    rewrite <- Hpost. apply firstn_skipn.
Qed.

End FixMemorySourceFacts.

Section FixAllMemoryErrorsFacts.
Local Open Scope list_scope.
Local Open Scope nat_scope.
Import Scripts.Py Scripts.fix_all_memory_errors.

Lemma find_definitions_cons (i : nat) (line : str) (lines : list str) :
  find_definitions i (line :: lines)
    = ((if is_definition line then [i] else []) ++ fst (find_definitions (S i) lines),
       (lit "Found compareEqual at line " ++ str_of_int i)
         :: snd (find_definitions (S i) lines)).
Proof. cbn [find_definitions]. destruct (find_definitions (S i) lines). reflexivity. Qed.

Lemma find_definitions_count (lines : list str) (i : nat) :
  List.length (fst (find_definitions i lines)) = definitions lines.
Proof.
  unfold definitions. revert i. induction lines as [| line lines IH]; intros i;
    [reflexivity |].
  rewrite find_definitions_cons. cbn [fst filter].
  destruct (is_definition line); cbn [app List.length]; rewrite IH; reflexivity.
Qed.

Lemma find_definitions_printed (lines : list str) (i : nat) :
  snd (find_definitions i lines)
    = map (fun k => lit "Found compareEqual at line " ++ str_of_int k)
        (seq i (List.length lines)).
Proof.
  revert i. induction lines as [| line lines IH]; intros i; [reflexivity |].
  rewrite find_definitions_cons. cbn [snd List.length seq map].
  rewrite IH. reflexivity.
Qed.

(** The [k]-th line number found is that of a definition with exactly [k]
    definitions before it. *)
Lemma find_definitions_nth (lines : list str) (i k s : nat) :
  nth_error (fst (find_definitions i lines)) k = Some s ->
  i <= s < i + List.length lines /\
  is_definition (nth (s - i) lines []) = true /\
  definitions (firstn (s - i) lines) = k.
Proof.
  unfold definitions.
  revert i k. induction lines as [| line lines IH]; intros i k.
  - simpl. destruct k; discriminate.
  - rewrite find_definitions_cons. cbn [fst].
    destruct (is_definition line) eqn:Hdef; cbn [app].
    + destruct k as [| k]; cbn [nth_error].
      * intros H. inversion H; subst. rewrite Nat.sub_diag.
        cbn [nth firstn filter List.length]. repeat split; try lia. exact Hdef.
      * intros H. destruct (IH _ _ H) as (Hr & Hd & Hc).
        replace (s - i) with (S (s - S i)) by lia.
        cbn [nth firstn filter List.length]. rewrite Hdef. cbn [List.length].
        repeat split; try lia. exact Hd.
    + intros H. destruct (IH _ _ H) as (Hr & Hd & Hc).
      replace (s - i) with (S (s - S i)) by lia.
      cbn [nth firstn filter List.length]. rewrite Hdef.
      repeat split; try lia. exact Hd.
Qed.

Lemma first_bad_start_spec (lines : list str) :
  2 <= definitions lines ->
  2 <= first_bad_start lines <= List.length lines /\
  is_definition (nth (first_bad_start lines - 1) lines []) = true /\
  definitions (firstn (first_bad_start lines - 1) lines) = 1.
Proof.
  intros Htwo. rewrite <- (find_definitions_count lines 1) in Htwo.
  unfold first_bad_start.
  destruct (nth_error (fst (find_definitions 1 lines)) 1) as [s |] eqn:Hs.
  - rewrite (nth_error_nth _ _ _ Hs).
    destruct (find_definitions_nth _ _ _ _ Hs) as (Hr & Hd & Hc).
    assert (s <> 1).
    { intros ->. rewrite Nat.sub_diag in Hc. discriminate Hc. }
    repeat split; try lia; assumption.
  - apply nth_error_None in Hs. lia.
Qed.

(** The scan ends on its initial [end_line], or behind a line that
    strips to a closing brace. *)
Lemma find_end_spec (rest : list str) (i brace_count end_line : nat) :
  let r := find_end i rest brace_count end_line in
  r = end_line \/
  (i < r <= i + List.length rest /\ strip (nth (r - i - 1) rest []) = lit "}").
Proof.
  cbv zeta. revert i brace_count.
  induction rest as [| line rest IH]; intros i brace_count; [left; reflexivity |].
  cbn [find_end].
  set (bc := if contains (lit "return") line then S brace_count else brace_count).
  destruct (Nat.leb 2 bc && str_eqb (strip line) (lit "}")) eqn:Hend.
  - right. apply andb_true_iff in Hend. destruct Hend as [_ Hbrace].
    apply str_eqb_eq in Hbrace. cbn [List.length].
    replace (S i - i - 1) with 0 by lia. cbn [nth]. split; [lia | exact Hbrace].
  - destruct (IH (S i) bc) as [He | [Hr Hbrace]]; [left; exact He | right].
    cbn [List.length]. split; [lia |].
    replace (find_end (S i) rest bc end_line - i - 1)
      with (S (find_end (S i) rest bc end_line - S i - 1)) by lia.
    exact Hbrace.
Qed.

(** Without two lines that contain [return], the scan never ends early. *)
Lemma find_end_few_returns (rest : list str) (i brace_count end_line : nat) :
  brace_count + returns rest < 2 ->
  find_end i rest brace_count end_line = end_line.
Proof.
  unfold returns. revert i brace_count.
  induction rest as [| line rest IH]; intros i brace_count Hfew; [reflexivity |].
  cbn [find_end]. cbn [filter] in Hfew.
  destruct (contains (lit "return") line); cbn [List.length] in Hfew.
  - replace (Nat.leb 2 (S brace_count)) with false
      by (symmetry; apply Nat.leb_gt; lia).
    cbn [andb]. apply IH. lia.
  - replace (Nat.leb 2 brace_count) with false
      by (symmetry; apply Nat.leb_gt; lia).
    cbn [andb]. apply IH. lia.
Qed.

Lemma main_unfold (lines : list str) :
  main lines
    = let printed := snd (find_definitions 1 lines) in
      if Nat.ltb 1 (definitions lines) then
        let s := first_bad_start lines in
        let e := find_end (s - 1) (skipn (s - 1) lines) 0 s in
        let new_lines := firstn (s - 1) lines ++ skipn e lines in
        {| written := Some new_lines;
           stdout :=
             printed ++
             [ lit "Removing duplicate compareEqual starting at line "
                 ++ str_of_int s;
               lit "Removing lines " ++ str_of_int s
                 ++ lit " to " ++ str_of_int e;
               lit "Fixed! Removed "
                 ++ str_of_int (List.length lines - List.length new_lines)
                 ++ lit " lines" ] |}
      else
        {| written := None;
           stdout :=
             printed
             ++ [lit "Found only one compareEqual function, no need to fix"] |}.
Proof.
  unfold main, first_bad_start. rewrite <- (find_definitions_count lines 1).
  destruct (find_definitions 1 lines) as [found printed]. reflexivity.
Qed.

Lemma skipn_cons_nth {A : Type} (n : nat) (l : list A) (d : A) :
  n < List.length l -> skipn n l = nth n l d :: skipn (S n) l.
Proof.
  revert l. induction n as [| n IH]; intros [| x l] Hn;
    cbn [List.length] in Hn; try lia; [reflexivity |].
  cbn [skipn nth]. apply IH. lia.
Qed.

Lemma definitions_app (l1 l2 : list str) :
  definitions (l1 ++ l2) = definitions l1 + definitions l2.
Proof. unfold definitions. rewrite filter_app, length_app. reflexivity. Qed.

Lemma definitions_skipn_le (n : nat) (lines : list str) :
  definitions (skipn n lines) <= definitions lines.
Proof.
  rewrite <- (firstn_skipn n lines) at 2. rewrite definitions_app. lia.
Qed.

(** With at most one definition the script leaves the file alone. *)
Theorem no_duplicate_no_write (lines : list str)
    (Hone : definitions lines <= 1) :
  written (main lines) = None.
Proof.
  rewrite main_unfold. cbv zeta.
  replace (Nat.ltb 1 (definitions lines)) with false
    by (symmetry; apply Nat.ltb_ge; exact Hone).
  reflexivity.
Qed.

Lemma main_rewrites (lines : list str) :
  2 <= definitions lines ->
  written (main lines)
    = Some (firstn (first_bad_start lines - 1) lines ++ skipn (end_line lines) lines).
Proof.
  intros Htwo. rewrite main_unfold. cbv zeta.
  replace (Nat.ltb 1 (definitions lines)) with true
    by (symmetry; apply Nat.ltb_lt; lia).
  reflexivity.
Qed.

Lemma end_line_spec (lines : list str) :
  2 <= definitions lines ->
  first_bad_start lines <= end_line lines <= List.length lines /\
  (end_line lines = first_bad_start lines \/
   strip (nth (end_line lines - 1) lines []) = lit "}").
Proof.
  intros Htwo. destruct (first_bad_start_spec lines Htwo) as (Hs & _ & _).
  unfold end_line. set (s := first_bad_start lines) in *.
  pose proof (find_end_spec (skipn (s - 1) lines) (s - 1) 0 s) as Hend.
  cbv zeta in Hend. rewrite length_skipn in Hend.
  destruct Hend as [-> | [Hr Hbrace]]; [split; [lia | left; reflexivity] |].
  split; [lia | right].
  rewrite nth_skipn in Hbrace.
  replace (s - 1 + (find_end (s - 1) (skipn (s - 1) lines) 0 s - (s - 1) - 1))
    with (find_end (s - 1) (skipn (s - 1) lines) 0 s - 1) in Hbrace by lia.
  exact Hbrace.
Qed.

(** With two definitions or more the script removes a block of lines
    that starts with the line of the second definition: the lines before
    it, among them the first definition and no other, are kept, and so
    are the lines behind the block; the block ends with a line that
    strips to a closing brace unless it is that one line only; it has
    [e - s + 1] lines, the number the script prints as removed. *)
Theorem duplicate_block_removed (lines : list str)
    (Htwo : 2 <= definitions lines) :
  exists s e,
    written (main lines) = Some (firstn (s - 1) lines ++ skipn e lines) /\
    2 <= s <= e /\ e <= List.length lines /\
    is_definition (nth (s - 1) lines []) = true /\
    definitions (firstn (s - 1) lines) = 1 /\
    (e = s \/ strip (nth (e - 1) lines []) = lit "}") /\
    List.length (firstn (s - 1) lines ++ skipn e lines) + (e - s + 1)
      = List.length lines.
Proof.
  destruct (first_bad_start_spec lines Htwo) as (Hs & Hdef & Hbefore).
  destruct (end_line_spec lines Htwo) as (He & Hbrace).
  exists (first_bad_start lines), (end_line lines).
  split; [apply main_rewrites, Htwo |].
  rewrite length_app, length_firstn, length_skipn.
  repeat split; try lia; assumption.
Qed.

(** When fewer than two lines from the second definition on contain
    [return], only the line of the second definition is removed: what
    followed it stays in the file. *)
Theorem duplicate_header_only (lines : list str)
    (Htwo : 2 <= definitions lines)
    (Hfew : returns (skipn (first_bad_start lines - 1) lines) < 2) :
  let s := first_bad_start lines in
  written (main lines) = Some (firstn (s - 1) lines ++ skipn s lines) /\
  List.length (firstn (s - 1) lines ++ skipn s lines) + 1 = List.length lines.
Proof.
  cbv zeta. destruct (first_bad_start_spec lines Htwo) as (Hs & _ & _).
  rewrite main_unfold. cbv zeta.
  replace (Nat.ltb 1 (definitions lines)) with true
    by (symmetry; apply Nat.ltb_lt; lia).
  rewrite find_end_few_returns by (simpl; exact Hfew).
  split; [reflexivity |].
  rewrite length_app, length_firstn, length_skipn. lia.
Qed.

(** A run that rewrites the file leaves fewer definitions than it found,
    and at least one. *)
Theorem fewer_definitions (lines : list str)
    (Htwo : 2 <= definitions lines) :
  exists new_lines,
    written (main lines) = Some new_lines /\
    1 <= definitions new_lines < definitions lines.
Proof.
  destruct (first_bad_start_spec lines Htwo) as (Hs & Hdef & Hbefore).
  destruct (end_line_spec lines Htwo) as (He & _).
  eexists. split; [apply main_rewrites, Htwo |].
  set (s := first_bad_start lines) in *. set (e := end_line lines) in *.
  rewrite definitions_app, Hbefore.
  rewrite <- (firstn_skipn (s - 1) lines) at 3.
  rewrite definitions_app, Hbefore.
  assert (Hsplit : skipn (s - 1) lines = nth (s - 1) lines [] :: skipn s lines).
  { replace s with (S (s - 1)) at 3 by lia. apply skipn_cons_nth. lia. }
  rewrite Hsplit. unfold definitions at 3. cbn [filter]. rewrite Hdef.
  cbn [List.length]. fold (definitions (skipn s lines)).
  replace e with ((e - s) + s) by lia. rewrite <- skipn_skipn.
  pose proof (definitions_skipn_le (e - s) (skipn s lines)). lia.
Qed.

(** The script prints one line [Found compareEqual at line n] for every
    line of the file, whether or not the line is a definition, before
    anything else. *)
Theorem found_printed_for_every_line (lines : list str) :
  firstn (List.length lines) (stdout (main lines))
    = map (fun n => lit "Found compareEqual at line " ++ str_of_int n)
        (seq 1 (List.length lines)).
Proof.
  rewrite main_unfold. cbv zeta. rewrite find_definitions_printed.
  set (found := map _ _).
  assert (Hlen : List.length found = List.length lines)
    by (unfold found; rewrite length_map, length_seq; reflexivity).
  destruct (Nat.ltb 1 (definitions lines)); cbn [stdout];
    rewrite firstn_app, <- Hlen, firstn_all, Nat.sub_diag, firstn_O, app_nil_r;
    reflexivity.
Qed.

End FixAllMemoryErrorsFacts.

(** *** The properties at concrete files *)

Section ScriptInstances.
Local Open Scope list_scope.
Local Open Scope nat_scope.
Import Scripts.Py ScriptSamples.

Lemma main_without_site_witness :
  Scripts.fix_parser.first_site (split newline (lit "package security")) = None /\
  written (Scripts.fix_parser.main (lit "package security"))
    = Some (lit "package security").
Proof.
  split; [reflexivity |].
  apply (main_without_site (lit "package security")). reflexivity.
Defined.

Lemma main_at_site_witness :
  Scripts.fix_parser.first_site (split newline parser_file) = Some 91 /\
  (let lines := split newline parser_file in
   written (Scripts.fix_parser.main parser_file)
     = Some (join [newline]
               (firstn 91 lines ++ Scripts.fix_parser.new_lines
                  ++ skipn (91 + 4) lines)) /\
   90 < 91 /\ 91 + 3 <= List.length lines /\
   List.length (Scripts.fix_parser.patched lines)
     = (if Nat.eqb (91 + 3) (List.length lines)
        then List.length lines + 9 else List.length lines + 8)).
Proof.
  split; [vm_compute; reflexivity |].
  apply (main_at_site parser_file 91). vm_compute. reflexivity.
Defined.

Lemma main_fewer_sites_witness :
  Scripts.fix_parser.first_site (split newline parser_file) = Some 91 /\
  exists content',
    written (Scripts.fix_parser.main parser_file) = Some content' /\
    List.length (Scripts.fix_parser.sites (split newline content'))
      < List.length (Scripts.fix_parser.sites (split newline parser_file)).
Proof.
  split; [vm_compute; reflexivity |].
  apply (main_fewer_sites parser_file 91). vm_compute. reflexivity.
Defined.

Lemma fix_fragment_issue_out_of_range_witness :
  ((0 < 1)%Z \/ (Z.of_nat (List.length (split newline parser_file)) < 0)%Z) /\
  Scripts.fix_parser.fix_fragment_issue parser_file 0 [] = Ok parser_file.
Proof.
  split; [left; reflexivity |].
  apply (fix_fragment_issue_out_of_range parser_file 0 []). left. reflexivity.
Defined.

Lemma fix_fragment_issue_replaces_witness :
  (1 <= 80)%Z /\
  (80 + 15 <= Z.of_nat (List.length (split newline parser_file)))%Z /\
  (let lines := split newline parser_file in
   let i := Z.to_nat (80 - 1) in
   Scripts.fix_parser.fix_fragment_issue parser_file 80 []
     = Ok (join [newline]
             (firstn i lines ++ Scripts.fix_parser.block ++ skipn (i + 16) lines)) /\
   List.length (firstn i lines ++ Scripts.fix_parser.block ++ skipn (i + 16) lines) + 2
     = List.length lines).
Proof.
  assert (H1 : (1 <= 80)%Z) by (apply Z.leb_le; reflexivity).
  assert (H2 : (80 + 15 <= Z.of_nat (List.length (split newline parser_file)))%Z)
    by (apply Z.leb_le; vm_compute; reflexivity).
  split; [exact H1 | split; [exact H2 |]].
  apply (fix_fragment_issue_replaces parser_file 80 [] H1 H2).
Defined.

Lemma fix_fragment_issue_raises_witness :
  (1 <= 90)%Z /\
  (90 <= Z.of_nat (List.length (split newline parser_file)))%Z /\
  (Z.of_nat (List.length (split newline parser_file)) < 90 + 15)%Z /\
  Scripts.fix_parser.fix_fragment_issue parser_file 90 [] = IndexError.
Proof.
  assert (H1 : (1 <= 90)%Z) by (apply Z.leb_le; reflexivity).
  assert (H2 : (90 <= Z.of_nat (List.length (split newline parser_file)))%Z)
    by (apply Z.leb_le; vm_compute; reflexivity).
  assert (H3 : (Z.of_nat (List.length (split newline parser_file)) < 90 + 15)%Z)
    by (apply Z.ltb_lt; vm_compute; reflexivity).
  split; [exact H1 | split; [exact H2 | split; [exact H3 |]]].
  apply (fix_fragment_issue_raises parser_file 90 [] H1 H2 H3).
Defined.

Lemma no_duplicate_no_write_witness :
  Scripts.fix_all_memory_errors.definitions (firstn 3 memory_lines) <= 1 /\
  written (Scripts.fix_all_memory_errors.main (firstn 3 memory_lines)) = None.
Proof.
  assert (H : Scripts.fix_all_memory_errors.definitions (firstn 3 memory_lines) <= 1)
    by (apply Nat.leb_le; vm_compute; reflexivity).
  split; [exact H |].
  apply (no_duplicate_no_write (firstn 3 memory_lines) H).
Defined.

Lemma duplicate_block_removed_witness :
  2 <= Scripts.fix_all_memory_errors.definitions memory_lines /\
  exists s e,
    written (Scripts.fix_all_memory_errors.main memory_lines)
      = Some (firstn (s - 1) memory_lines ++ skipn e memory_lines) /\
    2 <= s <= e /\ e <= List.length memory_lines /\
    Scripts.fix_all_memory_errors.is_definition (nth (s - 1) memory_lines []) = true /\
    Scripts.fix_all_memory_errors.definitions (firstn (s - 1) memory_lines) = 1 /\
    (e = s \/ strip (nth (e - 1) memory_lines []) = lit "}") /\
    List.length (firstn (s - 1) memory_lines ++ skipn e memory_lines) + (e - s + 1)
      = List.length memory_lines.
Proof.
  assert (H : 2 <= Scripts.fix_all_memory_errors.definitions memory_lines)
    by (apply Nat.leb_le; vm_compute; reflexivity).
  split; [exact H |].
  apply (duplicate_block_removed memory_lines H).
Defined.

Lemma duplicate_header_only_witness :
  2 <= Scripts.fix_all_memory_errors.definitions (firstn 5 memory_lines) /\
  Scripts.fix_all_memory_errors.returns
    (skipn (Scripts.fix_all_memory_errors.first_bad_start (firstn 5 memory_lines) - 1)
       (firstn 5 memory_lines)) < 2 /\
  (let s := Scripts.fix_all_memory_errors.first_bad_start (firstn 5 memory_lines) in
   written (Scripts.fix_all_memory_errors.main (firstn 5 memory_lines))
     = Some (firstn (s - 1) (firstn 5 memory_lines) ++ skipn s (firstn 5 memory_lines)) /\
   List.length (firstn (s - 1) (firstn 5 memory_lines)
                  ++ skipn s (firstn 5 memory_lines)) + 1
     = List.length (firstn 5 memory_lines)).
Proof.
  assert (H1 : 2 <= Scripts.fix_all_memory_errors.definitions (firstn 5 memory_lines))
    by (apply Nat.leb_le; vm_compute; reflexivity).
  assert (H2 : Scripts.fix_all_memory_errors.returns
                 (skipn (Scripts.fix_all_memory_errors.first_bad_start
                           (firstn 5 memory_lines) - 1)
                    (firstn 5 memory_lines)) < 2)
    by (apply Nat.ltb_lt; vm_compute; reflexivity).
  split; [exact H1 | split; [exact H2 |]].
  apply (duplicate_header_only (firstn 5 memory_lines) H1 H2).
Defined.

Lemma fewer_definitions_witness :
  2 <= Scripts.fix_all_memory_errors.definitions memory_lines /\
  exists new_lines,
    written (Scripts.fix_all_memory_errors.main memory_lines) = Some new_lines /\
    1 <= Scripts.fix_all_memory_errors.definitions new_lines
      < Scripts.fix_all_memory_errors.definitions memory_lines.
Proof.
  assert (H : 2 <= Scripts.fix_all_memory_errors.definitions memory_lines)
    by (apply Nat.leb_le; vm_compute; reflexivity).
  split; [exact H |].
  apply (fewer_definitions memory_lines H).
Defined.

(** The sample files, run. *)

Example parser_file_patched :
  written (Scripts.fix_parser.main parser_file)
    = Some (join [newline]
              (numbered 91 ++ Scripts.fix_parser.new_lines ++ [tabs 2 ++ lit "}"])).
Proof. vm_compute. reflexivity. Qed.

Example memory_lines_fixed :
  written (Scripts.fix_all_memory_errors.main memory_lines)
    = Some (firstn 3 memory_lines ++ skipn 7 memory_lines).
Proof. vm_compute. reflexivity. Qed.

End ScriptInstances.
